(** * Network device test framework: a shallow embedding

    The Python class [NetworkDeviceTestFramework] of
    [network_test_framework.py] is embedded as a state-and-exception monad
    over the framework object ([test_results], [defects], [device_configs])
    and the outside world (wall clock, ISO timestamps, random generator).

    Modelling conventions:
    - a Python [str] is a [string] of bytes (UTF-8); [str.lower] is the ASCII
      lower-casing, which is what Python does on ASCII text;
    - a Python [float] is a binary64 [float] of the kernel, compared with the
      IEEE comparisons Python uses;
    - a Python [int] is a [Z] (a [nat] for [len]);
    - the dictionaries the code builds have fixed key sets, so each becomes a
      record (or a constructor of a tagged union when several shapes exist);
      [device_configs], whose key order [run_test_suite] iterates over, is an
      insertion-ordered association list;
    - the three [simulate_*] methods are the device adapter: the checks are
      written against an [Adapter] record of methods, and [simulator] is the
      instance found in the source;
    - logging and [time.sleep] have no effect on the modelled state. *)

From Stdlib Require Import ZArith List String Ascii Floats Lia Bool.
From Stdlib Require Import DecimalString DecimalNat DecimalZ.
From stdpp Require Import base list.

Set Warnings "-inexact-float".
Open Scope string_scope.

(** ** Python strings *)

Definition lower_ascii (c : ascii) : ascii :=
  let n := nat_of_ascii c in
  if (65 <=? n)%nat && (n <=? 90)%nat then ascii_of_nat (n + 32) else c.

(** [s.lower()] *)
Fixpoint lower (s : string) : string :=
  match s with
  | EmptyString => EmptyString
  | String c s' => String (lower_ascii c) (lower s')
  end.

(** [sub in s] *)
Fixpoint contains (sub s : string) : bool :=
  String.prefix sub s ||
  match s with
  | EmptyString => false
  | String _ s' => contains sub s'
  end.

(** [str(z)] for an [int], as an f-string renders it. *)
Definition str_int (z : Z) : string := NilZero.string_of_int (Z.to_int z).

(** [n] characters ['0']. *)
Fixpoint zeros (n : nat) : Decimal.uint -> Decimal.uint :=
  match n with
  | O => fun d => d
  | S n' => fun d => Decimal.D0 (zeros n' d)
  end.

(** The format specification [:04d]: sign first, then the digits filled with
    zeros on the left up to a total width of four. *)
Definition format_04d (z : Z) : string :=
  let d := N.to_uint (Z.abs_N z) in
  let w := Decimal.nb_digits d in
  if (z <? 0)%Z
  then String "-" (NilEmpty.string_of_uint (zeros (3 - w) d))
  else NilEmpty.string_of_uint (zeros (4 - w) d).

(** ** Python floats *)

(** [float(n)] for a length; exact below [2^53]. *)
Definition float_of_nat (n : nat) : float :=
  PrimFloat.of_uint63 (Uint63.of_Z (Z.of_nat n)).

(** Nearest integer to [num / den], ties to even ([0 < den]). *)
Definition round_half_even (num den : Z) : Z :=
  let q := (num / den)%Z in
  let r := (num mod den)%Z in
  match (2 * r ?= den)%Z with
  | Lt => q
  | Gt => (q + 1)%Z
  | Eq => if Z.even q then q else (q + 1)%Z
  end.

(** The number of tenths nearest to the exact value [m * 2^e]. *)
Definition tenths (m : positive) (e : Z) : Z :=
  if (0 <=? e)%Z
  then (10 * Z.pos m * 2 ^ e)%Z
  else round_half_even (10 * Z.pos m) (2 ^ (- e)).

(** The format specification [:.1f]: the exact binary value correctly rounded
    to one decimal place. *)
Definition format_1f (x : float) : string :=
  match Prim2SF x with
  | S754_nan => "nan"
  | S754_infinity s => if s then "-inf" else "inf"
  | S754_zero s => if s then "-0.0" else "0.0"
  | S754_finite s m e =>
      let t := tenths m e in
      (if s then "-" else "") ++ str_int (t / 10) ++ "." ++ str_int (t mod 10)
  end.

(** ** Data model *)

(** A value that is an [int] in one dictionary and a [float] in another. *)
Inductive pynum :=
| PInt (z : Z)
| PFloat (f : float).

(** One entry of [device_configs]. *)
Record Device := mkDevice {
  ip : string;
  type : string;
  management_port : Z;
  expected_interfaces : Z;
  protocols : list string
}.

(** [device_configs]: a dictionary in insertion order. *)
Definition Registry := list (string * Device).

(** [device_configs.get(device_name)] *)
Fixpoint get (cfg : Registry) (device_name : string) : option Device :=
  match cfg with
  | [] => None
  | (k, d) :: cfg' => if String.eqb k device_name then Some d else get cfg' device_name
  end.

(** [list(device_configs.keys())] *)
Definition keys (cfg : Registry) : list string := map fst cfg.

Definition default_devices : Registry :=
  [ ("optical_device_1",
     {| ip := "192.168.1.100"; type := "optical_transponder";
        management_port := 8080; expected_interfaces := 4;
        protocols := ["REST"; "SNMP"; "CLI"] |});
    ("microwave_device_1",
     {| ip := "192.168.1.101"; type := "microwave_radio";
        management_port := 443; expected_interfaces := 2;
        protocols := ["REST"; "NETCONF"] |}) ].

(** One element of the ['interfaces'] list. *)
Record Interface := mkInterface {
  if_name : string;
  if_status : string;
  if_speed : string;
  if_duplex : string
}.

(** One element of the ['active_alarms'] list. *)
Record Alarm := mkAlarm {
  al_severity : string;
  al_message : string;
  al_timestamp : string
}.

(** The dictionaries [simulate_rest_call] returns, one constructor per shape. *)
Inductive Response :=
| RespError (error : string)
| RespStatus (status uptime : string) (cpu_usage memory_usage temperature : float)
             (interfaces_up : Z)
| RespInterfaces (interfaces : list Interface)
| RespAlarms (active_alarms : list Alarm)
| RespMessage (message : string).

(** ['error' in data] *)
Definition has_error (data : Response) : bool :=
  match data with RespError _ => true | _ => false end.

(** [data['error']], read only where ['error' in data] holds. *)
Definition get_error (data : Response) : string :=
  match data with RespError e => e | _ => "" end.

(** [data.get('cpu_usage', 0)] and its siblings; the default [0] compares as
    the float zero. *)
Definition get_cpu_usage (data : Response) : float :=
  match data with RespStatus _ _ c _ _ _ => c | _ => 0%float end.
Definition get_memory_usage (data : Response) : float :=
  match data with RespStatus _ _ _ m _ _ => m | _ => 0%float end.
Definition get_temperature (data : Response) : float :=
  match data with RespStatus _ _ _ _ t _ => t | _ => 0%float end.

(** [data.get('interfaces', [])] *)
Definition get_interfaces (data : Response) : list Interface :=
  match data with RespInterfaces l => l | _ => [] end.

(** [data.get('active_alarms', [])] *)
Definition get_active_alarms (data : Response) : list Alarm :=
  match data with RespAlarms l => l | _ => [] end.

Inductive Status := PASSED | FAILED | ERROR.

Inductive Severity := CRITICAL | MAJOR | MINOR.

(** The keys of a result dictionary that depend on the check that built it. *)
Inductive Detail :=
| DBare (error : string)
| DConnectivity (response_time_ms : float) (port_accessible : bool)
                (error : option string)
| DStatus (system_data : Response) (issues : list string)
| DInterface (interface_data : Response) (issues : list string)
| DAlarm (active_alarms : list Alarm) (alarm_count : nat).

(** One element of [test_results]; the key ['device'] is absent from the
    dictionaries built for an unknown device and in the [except] branches. *)
Record TestResult := mkTestResult {
  tr_test_name : string;
  tr_device : option string;
  tr_status : Status;
  tr_detail : Detail;
  tr_duration : pynum;
  tr_timestamp : string
}.

(** One element of [defects]. *)
Record Defect := mkDefect {
  defect_id : string;
  df_device : string;
  df_category : string;
  df_description : string;
  df_severity : Severity;
  df_status : string;
  df_created_date : string;
  df_assigned_to : string
}.

Record TestSummary := mkTestSummary {
  total_tests : nat;
  passed : nat;
  failed : nat;
  errors : nat;
  pass_rate : string
}.

Record Report := mkReport {
  test_summary : TestSummary;
  rp_test_results : list TestResult;
  defects_found : nat;
  defect_details : list Defect;
  report_generated : string
}.

(** The attributes of a [NetworkDeviceTestFramework] object. *)
Record Framework := mkFramework {
  test_results : list TestResult;
  defects : list Defect;
  device_configs : Registry
}.

(** ** The outside world

    [time.time()], [datetime.now().isoformat()] and [random.random()] read
    the world: the [k]-th read of the run returns the [k]-th value of the
    corresponding source, and every read advances [ticks]. *)
Record World := mkWorld {
  ticks : nat;
  wall_clock : nat -> float;
  iso_clock : nat -> string;
  entropy : nat -> float
}.

Definition tick (w : World) : World :=
  {| ticks := S (ticks w); wall_clock := wall_clock w;
     iso_clock := iso_clock w; entropy := entropy w |}.

(** ** The monad: framework state, world, and Python exceptions *)

(** A returned value, or a raised exception with its [str(e)]. *)
Inductive Result (A : Type) :=
| Ok (a : A)
| Raise (e : string).
Arguments Ok {A} a.
Arguments Raise {A} e.

Definition M (A : Type) : Type := Framework -> World -> Result A * Framework * World.

#[export] Instance M_ret : MRet M := fun A a fw w => (Ok a, fw, w).

(** A raised exception skips the rest; the state reached so far is kept. *)
#[export] Instance M_bind : MBind M := fun A B k m fw w =>
  match m fw w with
  | (Ok a, fw', w') => k a fw' w'
  | (Raise e, fw', w') => (Raise e, fw', w')
  end.

(** [try: body except Exception as e: handler(str(e))] *)
Definition try_except {A} (body : M A) (handler : string -> M A) : M A :=
  fun fw w =>
    match body fw w with
    | (Ok a, fw', w') => (Ok a, fw', w')
    | (Raise e, fw', w') => handler e fw' w'
    end.

(** Reading an attribute of [self]. *)
Definition gets {A} (f : Framework -> A) : M A := fun fw w => (Ok (f fw), fw, w).

(** [time.time()] *)
Definition time_time : M float :=
  fun fw w => (Ok (wall_clock w (ticks w)), fw, tick w).

(** [datetime.now().isoformat()] *)
Definition now_isoformat : M string :=
  fun fw w => (Ok (iso_clock w (ticks w)), fw, tick w).

(** [random.random()] *)
Definition random_random (w : World) : Result float * World :=
  (Ok (entropy w (ticks w)), tick w).

(** A call that reaches the device: it may read and advance the world and may
    raise, and it leaves the framework object alone. *)
Definition call {A} (f : World -> Result A * World) : M A :=
  fun fw w => let '(r, w') := f w in (r, fw, w').

(** [l.append(x)] and a run of appends, on a list value. *)
Definition append {A} (l : list A) (x : A) : list A := (l ++ [x])%list.
Definition extend {A} (l xs : list A) : list A := (l ++ xs)%list.

(** [self.test_results.append(result)] *)
Definition append_result (result : TestResult) : M unit :=
  fun fw w =>
    (Ok tt,
     {| test_results := append (test_results fw) result; defects := defects fw;
        device_configs := device_configs fw |}, w).

(** [self.defects.append(defect)] *)
Definition append_defect (defect : Defect) : M unit :=
  fun fw w =>
    (Ok tt,
     {| test_results := test_results fw; defects := append (defects fw) defect;
        device_configs := device_configs fw |}, w).

(** [for x in l: body(x)] *)
Fixpoint for_each {A} (l : list A) (body : A -> M unit) : M unit :=
  match l with
  | [] => mret tt
  | x :: l' => body x ;; for_each l' body
  end.

(** ** The device adapter *)

(** The three methods through which the checks reach a device. *)
Record Adapter := mkAdapter {
  simulate_rest_call : Registry -> string -> string -> World -> Result Response * World;
  simulate_ping : string -> World -> Result float * World;
  simulate_port_check : string -> Z -> World -> Result bool * World
}.

(** [range(n)] *)
Definition range (n : Z) : list Z := map Z.of_nat (seq 0 (Z.to_nat n)).

(** [simulate_rest_call] of the source (its [method] and [data] arguments are
    never passed and never read). *)
Definition sim_rest_call (cfg : Registry) (device_name endpoint : string) : Response :=
  match get cfg device_name with
  | None => RespError "Device not found"
  | Some device =>
      if String.eqb endpoint "/system/status" then
        RespStatus "operational" "72:15:30" 15.2 45.8 35.2 (expected_interfaces device)
      else if String.eqb endpoint "/interfaces" then
        RespInterfaces
          (map (fun i =>
                  {| if_name := "eth" ++ str_int i;
                     if_status := if (i <? expected_interfaces device - 1)%Z
                                  then "up" else "down";
                     if_speed := "10Gbps";
                     if_duplex := "full" |})
               (range (expected_interfaces device)))
      else if String.eqb endpoint "/alarms" then
        RespAlarms
          (if (3 <? expected_interfaces device)%Z
           then [ {| al_severity := "minor"; al_message := "Interface eth3 down";
                     al_timestamp := "2025-09-26T10:30:00Z" |} ]
           else [])
      else RespMessage "Endpoint simulated successfully"
  end.

(** [random.uniform(a, b)], which Python computes as [a + (b - a) * random()]. *)
Definition random_uniform (a b : float) (w : World) : Result float * World :=
  match random_random w with
  | (Ok r, w') => (Ok (a + (b - a) * r)%float, w')
  | (Raise e, w') => (Raise e, w')
  end.

(** [simulate_ping]: [random.uniform(1.0, 50.0)] *)
Definition sim_ping (ip_address : string) : World -> Result float * World :=
  random_uniform 1.0 50.0.

(** [simulate_port_check]: [random.random() > 0.05] *)
Definition sim_port_check (ip_address : string) (port : Z) (w : World)
  : Result bool * World :=
  match random_random w with
  | (Ok r, w') => (Ok (0.05 <? r)%float, w')
  | (Raise e, w') => (Raise e, w')
  end.

(** The adapter of the source. *)
Definition simulator : Adapter :=
  {| simulate_rest_call := fun cfg device_name endpoint w =>
       (Ok (sim_rest_call cfg device_name endpoint), w);
     simulate_ping := sim_ping;
     simulate_port_check := sim_port_check |}.

(** ** The framework *)

(** [__init__] and [load_config]: without a configuration file, or when
    reading it raises, the default devices are used. [config] is what reading
    the file gave, [None] when no file was named. *)
Definition init (config : option (Result Registry)) : Framework :=
  {| test_results := [];
     defects := [];
     device_configs :=
       match config with
       | Some (Ok cfg) => cfg
       | Some (Raise _) => default_devices
       | None => default_devices
       end |}.

(** [load_config], as a call on an instance: [read] is what opening and
    parsing the file gave. The registry becomes the file's content, or the
    default devices when reading raised. *)
Definition load_config (read : Result Registry) : M unit :=
  fun fw w =>
    (Ok tt,
     {| test_results := test_results fw;
        defects := defects fw;
        device_configs :=
          match read with
          | Ok cfg => cfg
          | Raise _ => default_devices
          end |},
     w).

(** [determine_severity] *)
Definition determine_severity (category description : string) : Severity :=
  if contains "connectivity" (lower category) || contains "unreachable" (lower description)
  then CRITICAL
  else if contains "interface" (lower category) && contains "down" (lower description)
  then MAJOR
  else if contains "high" (lower description)
          && (contains "cpu" (lower description) || contains "memory" (lower description))
  then MINOR
  else MINOR.

(** [create_defect] *)
Definition create_defect (device_name category description : string) : M Defect :=
  n ← gets (fun self => length (defects self));
  let defect_id := "DEF-" ++ format_04d (Z.of_nat n + 1) in
  let severity := determine_severity category description in
  created_date ← now_isoformat;
  let defect :=
    {| defect_id := defect_id;
       df_device := device_name;
       df_category := category;
       df_description := description;
       df_severity := severity;
       df_status := "OPEN";
       df_created_date := created_date;
       df_assigned_to := "verification_team" |} in
  append_defect defect ;;
  mret defect.

(** The dictionary of the [except] branches. *)
Definition error_result (test_name : string) (start_time : float) (e : string)
  : M TestResult :=
  end_time ← time_time;
  timestamp ← now_isoformat;
  let result :=
    {| tr_test_name := test_name; tr_device := None; tr_status := ERROR;
       tr_detail := DBare e;
       tr_duration := PFloat (end_time - start_time);
       tr_timestamp := timestamp |} in
  append_result result ;;
  mret result.

Section Checks.

(** [repr] of a float, as an f-string renders it: part of the Python runtime. *)
Variable float_repr : float -> string.

Variable adapter : Adapter.

(** [test_device_connectivity] *)
Definition test_device_connectivity (device_name : string) : M TestResult :=
  let test_name := "connectivity_test_" ++ device_name in
  start_time ← time_time;
  device ← gets (fun self => get (device_configs self) device_name);
  match device with
  | None =>
      timestamp ← now_isoformat;
      let result :=
        {| tr_test_name := test_name; tr_device := None; tr_status := FAILED;
           tr_detail := DBare "Device configuration not found";
           tr_duration := PInt 0;
           tr_timestamp := timestamp |} in
      append_result result ;;
      mret result
  | Some device =>
      try_except
        (response_time ← call (simulate_ping adapter (ip device));
         port_open ← call (simulate_port_check adapter (ip device) (management_port device));
         '(status, error) ←
           (if (0 <? response_time)%float && port_open
            then mret (PASSED, None)
            else
              let error := "Connectivity failed - device unreachable" in
              create_defect device_name "connectivity" error ;;
              mret (FAILED, Some error));
         end_time ← time_time;
         timestamp ← now_isoformat;
         let result :=
           {| tr_test_name := test_name; tr_device := Some device_name;
              tr_status := status;
              tr_detail := DConnectivity response_time port_open error;
              tr_duration := PFloat (end_time - start_time);
              tr_timestamp := timestamp |} in
         append_result result ;;
         mret result)
        (error_result test_name start_time)
  end.

(** The failing checks of the loops: one defect per issue. *)
Definition report_issues (test_passed : bool) (device_name category : string)
    (issues : list string) : M unit :=
  if negb test_passed
  then for_each issues (fun issue => create_defect device_name category issue ;; mret tt)
  else mret tt.

(** The criteria and the threshold tests of [test_device_status]. *)
Definition cpu_usage_threshold : float := 80.0.
Definition memory_usage_threshold : float := 90.0.
Definition temperature_threshold : float := 60.0.

Definition evaluate_status (status_data : Response) : bool * list string :=
  let test_passed := true in
  let issues := [] in
  if has_error status_data then
    let test_passed := false in
    let issues := append issues (get_error status_data) in
    (test_passed, issues)
  else
    let '(test_passed, issues) :=
      if (cpu_usage_threshold <? get_cpu_usage status_data)%float
      then (false,
            append issues
              ("High CPU usage: " ++ float_repr (get_cpu_usage status_data) ++ "%"))
      else (test_passed, issues) in
    let '(test_passed, issues) :=
      if (memory_usage_threshold <? get_memory_usage status_data)%float
      then (false,
            append issues
              ("High memory usage: " ++ float_repr (get_memory_usage status_data) ++ "%"))
      else (test_passed, issues) in
    let '(test_passed, issues) :=
      if (temperature_threshold <? get_temperature status_data)%float
      then (false,
            append issues
              ("High temperature: " ++ float_repr (get_temperature status_data) ++ "Â°C"))
      else (test_passed, issues) in
    (test_passed, issues).

(** [test_device_status] *)
Definition test_device_status (device_name : string) : M TestResult :=
  let test_name := "status_test_" ++ device_name in
  start_time ← time_time;
  try_except
    (cfg ← gets device_configs;
     status_data ← call (simulate_rest_call adapter cfg device_name "/system/status");
     let '(test_passed, issues) := evaluate_status status_data in
     end_time ← time_time;
     timestamp ← now_isoformat;
     let result :=
       {| tr_test_name := test_name; tr_device := Some device_name;
          tr_status := if test_passed then PASSED else FAILED;
          tr_detail := DStatus status_data issues;
          tr_duration := PFloat (end_time - start_time);
          tr_timestamp := timestamp |} in
     report_issues test_passed device_name "performance" issues ;;
     append_result result ;;
     mret result)
    (error_result test_name start_time).

(** The count and link-state tests of [test_interface_status]. *)
Definition evaluate_interfaces (interface_data : Response) (expected_interfaces : Z)
  : bool * list string :=
  let test_passed := true in
  let issues := [] in
  if has_error interface_data then
    let test_passed := false in
    let issues := append issues (get_error interface_data) in
    (test_passed, issues)
  else
    let interfaces := get_interfaces interface_data in
    let '(test_passed, issues) :=
      if negb (Z.of_nat (length interfaces) =? expected_interfaces)%Z
      then (false,
            append issues
              ("Expected " ++ str_int expected_interfaces ++ " interfaces, found "
                 ++ str_int (Z.of_nat (length interfaces))))
      else (test_passed, issues) in
    let down_interfaces :=
      List.filter (fun iface => negb (String.eqb (if_status iface) "up")) interfaces in
    let '(test_passed, issues) :=
      match down_interfaces with
      | [] => (test_passed, issues)
      | _ :: _ =>
          (false,
           extend issues
             (map (fun iface => "Interface " ++ if_name iface ++ " is " ++ if_status iface)
                  down_interfaces))
      end in
    (test_passed, issues).

(** [test_interface_status] *)
Definition test_interface_status (device_name : string) : M TestResult :=
  let test_name := "interface_test_" ++ device_name in
  start_time ← time_time;
  try_except
    (cfg ← gets device_configs;
     interface_data ← call (simulate_rest_call adapter cfg device_name "/interfaces");
     let expected_interfaces :=
       match get cfg device_name with
       | Some device_config => expected_interfaces device_config
       | None => 0%Z
       end in
     let '(test_passed, issues) := evaluate_interfaces interface_data expected_interfaces in
     end_time ← time_time;
     timestamp ← now_isoformat;
     let result :=
       {| tr_test_name := test_name; tr_device := Some device_name;
          tr_status := if test_passed then PASSED else FAILED;
          tr_detail := DInterface interface_data issues;
          tr_duration := PFloat (end_time - start_time);
          tr_timestamp := timestamp |} in
     report_issues test_passed device_name "interface" issues ;;
     append_result result ;;
     mret result)
    (error_result test_name start_time).

(** [test_alarm_monitoring] *)
Definition test_alarm_monitoring (device_name : string) : M TestResult :=
  let test_name := "alarm_test_" ++ device_name in
  start_time ← time_time;
  try_except
    (cfg ← gets device_configs;
     alarm_data ← call (simulate_rest_call adapter cfg device_name "/alarms");
     end_time ← time_time;
     timestamp ← now_isoformat;
     let result :=
       {| tr_test_name := test_name; tr_device := Some device_name;
          tr_status := PASSED;
          tr_detail := DAlarm (get_active_alarms alarm_data)
                              (length (get_active_alarms alarm_data));
          tr_duration := PFloat (end_time - start_time);
          tr_timestamp := timestamp |} in
     append_result result ;;
     mret result)
    (error_result test_name start_time).

(** [run_test_suite] *)
Definition run_test_suite (device_names : option (list string)) : M unit :=
  device_names ←
    match device_names with
    | None => gets (fun self => keys (device_configs self))
    | Some l => mret l
    end;
  for_each device_names (fun device_name =>
    test_device_connectivity device_name ;;
    test_device_status device_name ;;
    test_interface_status device_name ;;
    test_alarm_monitoring device_name ;;
    mret tt).

End Checks.

(** [len([t for t in results if t['status'] == st])] *)
Definition status_eqb (a b : Status) : bool :=
  match a, b with
  | PASSED, PASSED | FAILED, FAILED | ERROR, ERROR => true
  | _, _ => false
  end.

Definition count_status (st : Status) (results : list TestResult) : nat :=
  length (List.filter (fun t => status_eqb (tr_status t) st) results).

(** [generate_test_report] *)
Definition generate_test_report : M Report :=
  results ← gets test_results;
  defect_list ← gets defects;
  let total_tests := length results in
  let passed_tests := count_status PASSED results in
  let failed_tests := count_status FAILED results in
  let error_tests := count_status ERROR results in
  let pass_rate :=
    if (0 <? total_tests)%nat
    then format_1f (float_of_nat passed_tests / float_of_nat total_tests * 100)%float ++ "%"
    else "0%" in
  let defects_found := length defect_list in
  generated ← now_isoformat;
  mret {| test_summary :=
            {| total_tests := total_tests; passed := passed_tests;
               failed := failed_tests; errors := error_tests;
               pass_rate := pass_rate |};
          rp_test_results := results;
          defects_found := defects_found;
          defect_details := defect_list;
          report_generated := generated |}.

(** * Vocabulary of the properties *)

(** The defect [create_defect] builds when [n] defects exist already. *)
Definition defect_for (device_name category : string) (n : nat) (description : string)
    (d : Defect) : Prop :=
  defect_id d = "DEF-" ++ format_04d (Z.of_nat n + 1)
  /\ df_device d = device_name
  /\ df_category d = category
  /\ df_description d = description
  /\ df_severity d = determine_severity category description
  /\ df_status d = "OPEN".

(** The defects a loop over [issues] builds, in order, from [n] on. *)
Inductive created (device_name category : string)
  : nat -> list string -> list Defect -> Prop :=
| created_nil n : created device_name category n [] []
| created_cons n issue issues d ds :
    defect_for device_name category n issue d ->
    created device_name category (S n) issues ds ->
    created device_name category n (issue :: issues) (d :: ds).

(** The framework after a check: one more result, some more defects. *)
Definition extended (fw : Framework) (r : TestResult) (ds : list Defect) : Framework :=
  {| test_results := test_results fw ++ [r];
     defects := defects fw ++ ds;
     device_configs := device_configs fw |}.

(** The issue strings a result carries: its ['issues'] list, or its
    ['error'] when it has one. *)
Definition issues_of (r : TestResult) : list string :=
  match tr_detail r with
  | DBare e => [e]
  | DConnectivity _ _ (Some e) => [e]
  | DConnectivity _ _ None => []
  | DStatus _ issues => issues
  | DInterface _ issues => issues
  | DAlarm _ _ => []
  end.

(** [device_configs.get(device_name, {}).get('expected_interfaces', 0)] *)
Definition expected_of (cfg : Registry) (device_name : string) : Z :=
  match get cfg device_name with
  | Some device_config => expected_interfaces device_config
  | None => 0%Z
  end.

(** The characters of a string. *)
Fixpoint chars (s : string) : list ascii :=
  match s with
  | EmptyString => []
  | String c s' => c :: chars s'
  end.

(** A text mentions a word when the word occurs in its lower-cased form,
    which is the test [determine_severity] applies. *)
Definition mentions (word text : string) : Prop :=
  exists pre post, lower text = pre ++ word ++ post.

(** Worlds for closed examples: the clock reads its own tick, and every
    random draw is the same number. *)
Definition steady_world (draw : float) : World :=
  {| ticks := 0;
     wall_clock := float_of_nat;
     iso_clock := fun k => "2025-09-26T10:30:" ++ format_04d (Z.of_nat k);
     entropy := fun _ => draw |}.

(** A rendering of floats for closed examples: the decimal with one
    fractional digit, which is what [repr] gives for the floats of the
    examples (85.5, 15.2 and the like). *)
Definition sample_repr : float -> string := format_1f.

(** The characters [repr] of a float is made of: digits, point, exponent
    mark and signs, and the letters of [inf] and [nan]. *)
Definition numeric_chars : list ascii := chars "0123456789.e+-infa".

Definition numeric_text (s : string) : Prop :=
  Forall (fun c => In c numeric_chars) (chars s).

(** The issues of the status check as the specification lists them: one per
    metric strictly above its threshold, naming the metric and its value. *)
Definition breach_issues (float_repr : float -> string) (cpu mem temp : float)
  : list string :=
  let cpu_issue := "High CPU usage: " ++ float_repr cpu ++ "%" in
  let mem_issue := "High memory usage: " ++ float_repr mem ++ "%" in
  let temp_issue := "High temperature: " ++ float_repr temp ++ "Â°C" in
  List.concat
    [ if (80.0 <? cpu)%float then [cpu_issue] else [];
      if (90.0 <? mem)%float then [mem_issue] else [];
      if (60.0 <? temp)%float then [temp_issue] else [] ].

(** Adapters for closed examples: the simulator with another answer to the
    REST calls. *)
Definition answering (data : Response) : Adapter :=
  {| simulate_rest_call := fun _ _ _ w => (Ok data, w);
     simulate_ping := sim_ping;
     simulate_port_check := sim_port_check |}.

(** A device running hot: CPU and temperature above their thresholds. *)
Definition hot_status : Response :=
  RespStatus "operational" "72:15:30" 85.5 45.8 71.0 4.

(** The issues of the interface check as the specification lists them: one
    for a count mismatch, then one per interface that is not up. *)
Definition interface_issues (expected : Z) (interfaces : list Interface) : list string :=
  let found := Z.of_nat (length interfaces) in
  let count_issue :=
    "Expected " ++ str_int expected ++ " interfaces, found " ++ str_int found in
  let link_issue iface := "Interface " ++ if_name iface ++ " is " ++ if_status iface in
  List.concat
    [ if (found =? expected)%Z then [] else [count_issue];
      map link_issue
          (List.filter (fun iface => negb (String.eqb (if_status iface) "up")) interfaces) ].



(** An outcome accounts for a defect: it is FAILED, it is about the
    defect's device, and the defect's description is one of its issues. *)
Definition accounts_for (r : TestResult) (d : Defect) : Prop :=
  tr_status r = FAILED
  /\ tr_device r = Some (df_device d)
  /\ In (df_description d) (issues_of r).

(** Every defect of the framework is accounted for by a recorded outcome. *)
Definition defects_accounted (fw : Framework) : Prop :=
  List.Forall (fun d => exists r, In r (test_results fw) /\ accounts_for r d) (defects fw).

(** Identifiers that continue the sequence after [n] defects. *)
Definition sequential_from (n : nat) (ds : list Defect) : Prop :=
  forall k d,
    nth_error ds k = Some d ->
    defect_id d = "DEF-" ++ format_04d (Z.of_nat (n + k) + 1).

(** What a check leaves behind: one outcome, and defects only for a FAILED
    outcome that lists them, numbered after the existing ones. *)
Definition check_step (device_name : string) (check : M TestResult) : Prop :=
  forall fw w,
    exists r ds w',
      check fw w = (Ok r, extended fw r ds, w')
      /\ (tr_status r <> FAILED -> ds = [])
      /\ List.Forall (fun d => df_device d = device_name /\ accounts_for r d) ds
      /\ sequential_from (length (defects fw)) ds.


(** A computation that returns and keeps an invariant of the framework. *)
Definition keeps {A} (I : Framework -> Prop) (m : M A) : Prop :=
  forall fw w, I fw -> exists a fw' w', m fw w = (Ok a, fw', w') /\ I fw'.

(** The four checks, in the order the suite runs them. *)
Definition checks (float_repr : float -> string) (adapter : Adapter)
  : list (string -> M TestResult) :=
  [ test_device_connectivity adapter;
    test_device_status float_repr adapter;
    test_interface_status adapter;
    test_alarm_monitoring adapter ].

(** The number a defect identifier carries: the digits after [DEF-]. *)
Definition defect_number (id : string) : option N :=
  match id with
  | String "D" (String "E" (String "F" (String "-" digits))) =>
      option_map N.of_uint (NilEmpty.uint_of_string digits)
  | _ => None
  end.

(** The calls a client of the framework can make on one instance. *)
Inductive Call :=
| CallConnectivity (device_name : string)
| CallStatus (device_name : string)
| CallInterface (device_name : string)
| CallAlarm (device_name : string)
| CallCreateDefect (device_name category description : string)
| CallRunSuite (device_names : option (list string))
| CallReport.

Definition perform (float_repr : float -> string) (adapter : Adapter) (c : Call)
  : M unit :=
  match c with
  | CallConnectivity n => test_device_connectivity adapter n ;; mret tt
  | CallStatus n => test_device_status float_repr adapter n ;; mret tt
  | CallInterface n => test_interface_status adapter n ;; mret tt
  | CallAlarm n => test_alarm_monitoring adapter n ;; mret tt
  | CallCreateDefect n c d => create_defect n c d ;; mret tt
  | CallRunSuite l => run_test_suite float_repr adapter l
  | CallReport => generate_test_report ;; mret tt
  end.

(** The states of one instance: as constructed, then after any calls, each
    made in any world. *)
Inductive reachable (float_repr : float -> string) (adapter : Adapter)
  : Framework -> Prop :=
| reach_init config : reachable float_repr adapter (init config)
| reach_call fw c w r fw' w' :
    reachable float_repr adapter fw ->
    perform float_repr adapter c fw w = (r, fw', w') ->
    reachable float_repr adapter fw'.

(** The instance of the demonstration: default devices, one full suite run. *)
Definition after_default_run : Framework :=
  snd (fst (run_test_suite sample_repr simulator None (init None) (steady_world 0.5))).

(** A report without its generation timestamp. *)
Definition erase_generated (report : Report) : Report :=
  {| test_summary := test_summary report;
     rp_test_results := rp_test_results report;
     defects_found := defects_found report;
     defect_details := defect_details report;
     report_generated := "" |}.

(** The rate the report prints for [passed] outcomes out of [total]. *)
Definition printed_rate (passed total : nat) : string :=
  format_1f (float_of_nat passed / float_of_nat total * 100)%float ++ "%".

(** The number of tenths of a percent behind a printed rate. *)
Definition rate_tenths (passed total : nat) : Z :=
  match Prim2SF (float_of_nat passed / float_of_nat total * 100)%float with
  | S754_finite false m e => tenths m e
  | _ => 0%Z
  end.

(** A number of tenths written with one decimal place and a percent sign. *)
Definition show_tenths (t : Z) : string :=
  str_int (t / 10) ++ "." ++ str_int (t mod 10) ++ "%".

(** ** Vocabulary of the further properties *)

(** The framework after some calls: more outcomes and more defects behind
    the ones it had, and the same registry. *)
Definition grown (fw : Framework) (rs : list TestResult) (ds : list Defect) : Framework :=
  {| test_results := test_results fw ++ rs;
     defects := defects fw ++ ds;
     device_configs := device_configs fw |}.


(** The device names a suite run goes through. *)
Definition suite_devices (device_names : option (list string)) (fw : Framework)
  : list string :=
  match device_names with
  | Some l => l
  | None => keys (device_configs fw)
  end.


(** A check that records one outcome under the name of the check and the
    device, with defects of one category built from a list of issues. *)
Definition outcome_step (prefix category device_name : string) (check : M TestResult)
  : Prop :=
  forall fw w,
    exists r ds w' issues,
      check fw w = (Ok r, extended fw r ds, w')
      /\ tr_test_name r = prefix ++ device_name
      /\ created device_name category (length (defects fw)) issues ds.

(** A defect as [create_defect] leaves it: open, and rated as
    [determine_severity] rates its own category and description. *)
Definition defect_well_formed (d : Defect) : Prop :=
  df_status d = "OPEN"
  /\ df_severity d = determine_severity (df_category d) (df_description d).



(** How many recorded outcomes have the status [st]. *)
Definition tally (st : Status) (fw : Framework) : nat :=
  count_status st (test_results fw).

(** The issue of the interface the simulator reports down for a device of
    [n] interfaces, and the issue of a count mismatch. *)
Definition last_interface_issue (n : Z) : string :=
  "Interface eth" ++ str_int (n - 1) ++ " is down".

Definition count_issue (expected found : Z) : string :=
  "Expected " ++ str_int expected ++ " interfaces, found " ++ str_int found.

(** The last interface of the simulator's list for a device of [n]
    interfaces, its status payload, and the alarm it raises for a device of
    more than three interfaces. *)
Definition last_interface (n : Z) : Interface :=
  {| if_name := "eth" ++ str_int (n - 1); if_status := "down";
     if_speed := "10Gbps"; if_duplex := "full" |}.

Definition nominal_status (n : Z) : Response :=
  RespStatus "operational" "72:15:30" 15.2 45.8 35.2 n.

Definition eth3_alarm : Alarm :=
  {| al_severity := "minor"; al_message := "Interface eth3 down";
     al_timestamp := "2025-09-26T10:30:00Z" |}.

(** A device name the registry knows, for a device of at least one
    interface. *)
Definition wired (cfg : Registry) (device_name : string) : Prop :=
  exists device,
    get cfg device_name = Some device /\ (1 <= expected_interfaces device)%Z.

(** A text none of whose characters lower-cases to [c]. *)
Definition avoids (c : ascii) (text : string) : Prop :=
  Forall (fun c' => lower_ascii c' <> c) (chars text).

(** Severities in increasing order of gravity. *)
Definition severity_rank (s : Severity) : nat :=
  match s with
  | MINOR => 0
  | MAJOR => 1
  | CRITICAL => 2
  end.

(** A float that is a positive number or the positive infinity, and one that
    may also be a zero. *)
Definition positive_float (x : spec_float) : Prop :=
  (exists m e, x = S754_finite false m e) \/ x = S754_infinity false.

Definition nonneg_float (x : spec_float) : Prop :=
  (exists s, x = S754_zero s) \/ positive_float x.

(** Payloads, registries and states for closed examples: one interface, up,
    where the second default device expects two; a status whose CPU and
    temperature readings are not numbers; a registry read from a file, naming
    one device the defaults lack; an instance with a single outcome, FAILED,
    and one with a single outcome, PASSED. *)
Definition single_link : Response :=
  RespInterfaces
    [ {| if_name := "eth0"; if_status := "up"; if_speed := "10Gbps"; if_duplex := "full" |} ].

Definition blank_status : Response :=
  RespStatus "operational" "72:15:30" nan 45.8 nan 4.

Definition edge_registry : Registry :=
  [ ("edge_router",
     {| ip := "10.0.0.1"; type := "router"; management_port := 830;
        expected_interfaces := 8; protocols := ["NETCONF"] |}) ].

Definition after_ghost_check : Framework :=
  snd (fst (test_device_connectivity simulator "ghost" (init None) (steady_world 0.5))).

Definition after_alarm_check : Framework :=
  snd (fst (test_alarm_monitoring simulator "optical_device_1" (init None)
              (steady_world 0.5))).

(** A payload without the metrics of a status: none of the keys
    ['cpu_usage'], ['memory_usage'], ['temperature']. *)
Definition lacks_metrics (data : Response) : bool :=
  match data with
  | RespStatus _ _ _ _ _ _ => false
  | _ => true
  end.

(** The severity of a defect whose description is the error text of a
    payload, by the category of the check that reports it. *)
Definition error_severity (category e : string) : Severity :=
  if contains "unreachable" (lower e) then CRITICAL
  else if contains "interface" (lower category) && contains "down" (lower e) then MAJOR
  else MINOR.

(** An error payload, as an adapter may answer it. *)
Definition link_down_error : Response := RespError "Link down".

(** The issues of an outcome that call for a defect: those of a FAILED
    outcome that carries the ['device'] key. *)
Definition tracked_issues (r : TestResult) : list string :=
  match tr_status r, tr_device r with
  | FAILED, Some _ => issues_of r
  | _, _ => []
  end.

(** The number of issues the recorded outcomes call a defect for. *)
Definition issue_count (results : list TestResult) : nat :=
  length (List.concat (map tracked_issues results)).

(** A defect that tracks an issue of a device. *)
Definition tracks (device_name issue : string) (d : Defect) : Prop :=
  df_device d = device_name /\ df_description d = issue.

(** A check whose defects are one per tracked issue of its outcome, in
    order. *)
Definition ledger_step (device_name : string) (check : M TestResult) : Prop :=
  forall fw w,
    exists r ds w',
      check fw w = (Ok r, extended fw r ds, w')
      /\ (tr_device r = None \/ tr_device r = Some device_name)
      /\ Forall2 (tracks device_name) (tracked_issues r) ds.

(** A computation that returns and creates [k] defects more than the tracked
    issues it records. *)
Definition balanced {A} (k : nat) (m : M A) : Prop :=
  forall fw w,
    exists a fw' w',
      m fw w = (Ok a, fw', w')
      /\ length (defects fw') + issue_count (test_results fw)
         = length (defects fw) + issue_count (test_results fw') + k.

(** The defects a call creates directly. *)
Definition direct_defects (c : Call) : nat :=
  match c with
  | CallCreateDefect _ _ _ => 1
  | _ => 0
  end.

(** Every tracked issue of every recorded outcome has its defect. *)
Definition issues_tracked (fw : Framework) : Prop :=
  Forall (fun r =>
            forall device_name,
              tr_device r = Some device_name ->
              Forall (fun issue => exists d, In d (defects fw) /\ tracks device_name issue d)
                     (tracked_issues r))
         (test_results fw).

(** * Properties *)

(** ** What one defect creation does *)

Lemma framework_eta (fw : Framework) :
  {| test_results := test_results fw; defects := defects fw;
     device_configs := device_configs fw |} = fw.
Proof. now destruct fw. Qed.

(** Unfolding the monad: the primitive operations, then the matches on the
    triples they return. *)
Ltac run_m :=
  unfold mbind, M_bind, mret, M_ret, gets, time_time, now_isoformat, call,
    append_result, append_defect, try_except, append, extend in *;
  cbv beta iota zeta in *.

Lemma bind_ok {A B} (m : M A) (k : A -> M B) fw w a fw' w' :
  m fw w = (Ok a, fw', w') -> (m ≫= k) fw w = k a fw' w'.
Proof. intros H. unfold mbind, M_bind. now rewrite H. Qed.

Lemma bind_raise {A B} (m : M A) (k : A -> M B) fw w e fw' w' :
  m fw w = (Raise e, fw', w') -> (m ≫= k) fw w = (Raise e, fw', w').
Proof. intros H. unfold mbind, M_bind. now rewrite H. Qed.

Lemma create_defect_run device_name category description fw w :
  exists d,
    create_defect device_name category description fw w
    = (Ok d,
       {| test_results := test_results fw; defects := defects fw ++ [d];
          device_configs := device_configs fw |},
       tick w)
    /\ defect_for device_name category (length (defects fw)) description d.
Proof.
  unfold create_defect. run_m.
  eexists. split; [reflexivity|].
  repeat split.
Qed.

Section Loops.

Variable device_name category : string.

Lemma for_each_create_defect issues : forall fw w,
  exists ds w',
    for_each issues (fun issue => create_defect device_name category issue ;; mret tt) fw w
    = (Ok tt,
       {| test_results := test_results fw; defects := defects fw ++ ds;
          device_configs := device_configs fw |},
       w')
    /\ created device_name category (length (defects fw)) issues ds.
Proof.
  induction issues as [|issue issues IH]; intros fw w.
  - exists [], w. split; [|constructor].
    simpl. rewrite app_nil_r, framework_eta. reflexivity.
  - destruct (create_defect_run device_name category issue fw w) as (d & Hrun & Hd).
    match type of Hrun with _ = (_, ?fw1, _) =>
      destruct (IH fw1 (tick w)) as (ds & w' & Hloop & Hds) end.
    exists (d :: ds), w'. split.
    + cbn [for_each].
      erewrite bind_ok by (erewrite bind_ok by exact Hrun; reflexivity).
      rewrite Hloop. cbn [test_results defects device_configs].
      now rewrite <- app_assoc.
    + constructor; [exact Hd|].
      cbn [defects] in Hds. rewrite length_app in Hds. simpl in Hds.
      now replace (S (length (defects fw))) with (length (defects fw) + 1) by lia.
Qed.

Lemma report_issues_run test_passed issues fw w :
  exists ds w',
    report_issues test_passed device_name category issues fw w
    = (Ok tt,
       {| test_results := test_results fw; defects := defects fw ++ ds;
          device_configs := device_configs fw |},
       w')
    /\ created device_name category (length (defects fw))
         (if test_passed then [] else issues) ds.
Proof.
  destruct test_passed; cbn [report_issues negb].
  - exists [], w. split; [|constructor].
    cbn. now rewrite app_nil_r, framework_eta.
  - apply for_each_create_defect.
Qed.

End Loops.

(** ** What each check does, path by path *)

Section CheckRuns.

Variable float_repr : float -> string.
Variable adapter : Adapter.

Lemma error_result_run test_name start_time e fw w :
  exists r,
    error_result test_name start_time e fw w = (Ok r, extended fw r [], tick (tick w))
    /\ tr_status r = ERROR /\ tr_device r = None /\ tr_detail r = DBare e.
Proof.
  unfold error_result, extended. run_m.
  eexists. rewrite app_nil_r. split; [reflexivity|]. repeat split.
Qed.

Lemma connectivity_unknown device_name fw w :
  get (device_configs fw) device_name = None ->
  exists r,
    test_device_connectivity adapter device_name fw w = (Ok r, extended fw r [], tick (tick w))
    /\ tr_status r = FAILED
    /\ tr_device r = None
    /\ tr_detail r = DBare "Device configuration not found".
Proof.
  intros Hget. unfold test_device_connectivity, extended. run_m.
  rewrite Hget. run_m.
  eexists. rewrite app_nil_r. split; [reflexivity|]. repeat split.
Qed.

Lemma connectivity_ping_raises device_name device fw w e w1 :
  get (device_configs fw) device_name = Some device ->
  simulate_ping adapter (ip device) (tick w) = (Raise e, w1) ->
  exists r,
    test_device_connectivity adapter device_name fw w = (Ok r, extended fw r [], tick (tick w1))
    /\ tr_status r = ERROR /\ tr_device r = None /\ tr_detail r = DBare e.
Proof.
  intros Hget Hping. unfold test_device_connectivity. run_m.
  rewrite Hget. run_m. rewrite Hping.
  apply error_result_run.
Qed.

Lemma connectivity_port_raises device_name device fw w rt e w1 w2 :
  get (device_configs fw) device_name = Some device ->
  simulate_ping adapter (ip device) (tick w) = (Ok rt, w1) ->
  simulate_port_check adapter (ip device) (management_port device) w1 = (Raise e, w2) ->
  exists r,
    test_device_connectivity adapter device_name fw w = (Ok r, extended fw r [], tick (tick w2))
    /\ tr_status r = ERROR /\ tr_device r = None /\ tr_detail r = DBare e.
Proof.
  intros Hget Hping Hport. unfold test_device_connectivity. run_m.
  rewrite Hget. run_m. rewrite Hping, Hport.
  apply error_result_run.
Qed.

Lemma connectivity_answered device_name device fw w rt po w1 w2 :
  get (device_configs fw) device_name = Some device ->
  simulate_ping adapter (ip device) (tick w) = (Ok rt, w1) ->
  simulate_port_check adapter (ip device) (management_port device) w1 = (Ok po, w2) ->
  exists r ds w',
    test_device_connectivity adapter device_name fw w = (Ok r, extended fw r ds, w')
    /\ tr_device r = Some device_name
    /\ if (0 <? rt)%float && po
       then tr_status r = PASSED
            /\ tr_detail r = DConnectivity rt po None
            /\ ds = []
       else tr_status r = FAILED
            /\ tr_detail r
               = DConnectivity rt po (Some "Connectivity failed - device unreachable")
            /\ created device_name "connectivity" (length (defects fw))
                 ["Connectivity failed - device unreachable"] ds.
Proof.
  intros Hget Hping Hport. unfold test_device_connectivity. run_m.
  rewrite Hget. run_m. rewrite Hping, Hport.
  destruct ((0 <? rt)%float && po).
  - run_m. eexists _, [], _. unfold extended. rewrite app_nil_r.
    split; [reflexivity|]. repeat split.
  - unfold create_defect. run_m. eexists _, [_], _. unfold extended.
    split; [reflexivity|]. repeat split.
    repeat constructor.
Qed.

Lemma status_raises device_name fw w e w1 :
  simulate_rest_call adapter (device_configs fw) device_name "/system/status" (tick w)
  = (Raise e, w1) ->
  exists r,
    test_device_status float_repr adapter device_name fw w
    = (Ok r, extended fw r [], tick (tick w1))
    /\ tr_status r = ERROR /\ tr_device r = None /\ tr_detail r = DBare e.
Proof.
  intros Hcall. unfold test_device_status. run_m. rewrite Hcall.
  apply error_result_run.
Qed.

Lemma status_answered device_name fw w status_data w1 :
  simulate_rest_call adapter (device_configs fw) device_name "/system/status" (tick w)
  = (Ok status_data, w1) ->
  exists r ds w',
    test_device_status float_repr adapter device_name fw w = (Ok r, extended fw r ds, w')
    /\ tr_device r = Some device_name
    /\ tr_status r = (if fst (evaluate_status float_repr status_data) then PASSED else FAILED)
    /\ tr_detail r = DStatus status_data (snd (evaluate_status float_repr status_data))
    /\ created device_name "performance" (length (defects fw))
         (if fst (evaluate_status float_repr status_data) then []
          else snd (evaluate_status float_repr status_data)) ds.
Proof.
  intros Hcall. unfold test_device_status. run_m. rewrite Hcall.
  destruct (evaluate_status float_repr status_data) as [test_passed issues].
  cbn [fst snd].
  destruct (report_issues_run device_name "performance" test_passed issues fw
              (tick (tick w1))) as (ds & w' & Hrun & Hds).
  rewrite Hrun. unfold extended. cbn [test_results defects device_configs].
  eexists _, ds, w'. split; [reflexivity|]. repeat split. exact Hds.
Qed.

Lemma interface_raises device_name fw w e w1 :
  simulate_rest_call adapter (device_configs fw) device_name "/interfaces" (tick w)
  = (Raise e, w1) ->
  exists r,
    test_interface_status adapter device_name fw w
    = (Ok r, extended fw r [], tick (tick w1))
    /\ tr_status r = ERROR /\ tr_device r = None /\ tr_detail r = DBare e.
Proof.
  intros Hcall. unfold test_interface_status. run_m. rewrite Hcall.
  apply error_result_run.
Qed.

Lemma interface_answered device_name fw w interface_data w1 :
  simulate_rest_call adapter (device_configs fw) device_name "/interfaces" (tick w)
  = (Ok interface_data, w1) ->
  let verdict :=
    evaluate_interfaces interface_data (expected_of (device_configs fw) device_name) in
  exists r ds w',
    test_interface_status adapter device_name fw w = (Ok r, extended fw r ds, w')
    /\ tr_device r = Some device_name
    /\ tr_status r = (if fst verdict then PASSED else FAILED)
    /\ tr_detail r = DInterface interface_data (snd verdict)
    /\ created device_name "interface" (length (defects fw))
         (if fst verdict then [] else snd verdict) ds.
Proof.
  intros Hcall verdict. subst verdict. unfold test_interface_status, expected_of.
  run_m. rewrite Hcall.
  match goal with |- context [evaluate_interfaces ?d ?n] =>
    destruct (evaluate_interfaces d n) as [test_passed issues] end.
  cbn [fst snd].
  destruct (report_issues_run device_name "interface" test_passed issues fw
              (tick (tick w1))) as (ds & w' & Hrun & Hds).
  rewrite Hrun. unfold extended. cbn [test_results defects device_configs].
  eexists _, ds, w'. split; [reflexivity|]. repeat split. exact Hds.
Qed.

Lemma alarm_raises device_name fw w e w1 :
  simulate_rest_call adapter (device_configs fw) device_name "/alarms" (tick w)
  = (Raise e, w1) ->
  exists r,
    test_alarm_monitoring adapter device_name fw w
    = (Ok r, extended fw r [], tick (tick w1))
    /\ tr_status r = ERROR /\ tr_device r = None /\ tr_detail r = DBare e.
Proof.
  intros Hcall. unfold test_alarm_monitoring. run_m. rewrite Hcall.
  apply error_result_run.
Qed.

Lemma alarm_answered device_name fw w alarm_data w1 :
  simulate_rest_call adapter (device_configs fw) device_name "/alarms" (tick w)
  = (Ok alarm_data, w1) ->
  exists r,
    test_alarm_monitoring adapter device_name fw w
    = (Ok r, extended fw r [], tick (tick w1))
    /\ tr_device r = Some device_name
    /\ tr_status r = PASSED
    /\ tr_detail r = DAlarm (get_active_alarms alarm_data)
                            (length (get_active_alarms alarm_data)).
Proof.
  intros Hcall. unfold test_alarm_monitoring, extended. run_m. rewrite Hcall.
  eexists. rewrite app_nil_r. split; [reflexivity|]. repeat split.
Qed.

End CheckRuns.

(** ** Substrings *)

Lemma prefix_iff (a b : string) :
  String.prefix a b = true <-> exists post, b = a ++ post.
Proof.
  revert b. induction a as [|c a IH]; intros b.
  - split; [intros _; now exists b | now destruct b].
  - destruct b as [|c' b]; simpl.
    + split; [discriminate | intros [post H]; discriminate].
    + destruct (Ascii.ascii_dec c c') as [->|Hne].
      * rewrite IH. split; intros [post H]; exists post; [now rewrite H | now injection H].
      * split; [discriminate | intros [post H]; injection H; congruence].
Qed.

(** [contains sub s] holds exactly when [sub] occurs in [s]. *)
Lemma contains_iff (sub s : string) :
  contains sub s = true <-> exists pre post, s = pre ++ sub ++ post.
Proof.
  induction s as [|c s IH]; cbn [contains].
  - rewrite orb_false_r, prefix_iff. split.
    + intros [post H]. now exists "", post.
    + intros ([|c pre] & post & H); [now exists post | discriminate].
  - rewrite orb_true_iff, prefix_iff, IH. split.
    + intros [[post H] | (pre & post & H)].
      * now exists "", post.
      * exists (String c pre), post. simpl. now rewrite H.
    + intros ([|c' pre] & post & H).
      * left. now exists post.
      * right. simpl in H. injection H as -> ->. now exists pre, post.
Qed.

Lemma chars_app (a b : string) : chars (a ++ b) = (chars a ++ chars b)%list.
Proof. induction a; simpl; congruence. Qed.

Lemma chars_lower (s : string) : chars (lower s) = map lower_ascii (chars s).
Proof. induction s; simpl; congruence. Qed.

(** A word that occurs in a text has all its characters in the text. *)
Lemma contains_chars (sub s : string) (c : ascii) :
  contains sub s = true -> In c (chars sub) -> In c (chars s).
Proof.
  rewrite contains_iff. intros (pre & post & ->) Hc.
  rewrite !chars_app, !in_app_iff. auto.
Qed.

Lemma contains_mentions (word text : string) :
  contains word (lower text) = true <-> mentions word text.
Proof. apply contains_iff. Qed.

(** ** Severity derivation *)

(** C5. The severity is a function of the category and the description
    alone, decided by precedence: CRITICAL when the category mentions
    "connectivity" or the description mentions "unreachable"; otherwise MAJOR
    when the category mentions "interface" and the description mentions
    "down"; otherwise MINOR. Whatever the framework state and the world,
    [create_defect] stores exactly this value. *)
Theorem determine_severity_precedence (category description : string) :
  let critical :=
    mentions "connectivity" category \/ mentions "unreachable" description in
  let major :=
    mentions "interface" category /\ mentions "down" description in
  (critical -> determine_severity category description = CRITICAL)
  /\ (~ critical -> major -> determine_severity category description = MAJOR)
  /\ (~ critical -> ~ major -> determine_severity category description = MINOR)
  /\ (forall device_name fw w,
        exists d fw' w',
          create_defect device_name category description fw w = (Ok d, fw', w')
          /\ df_severity d = determine_severity category description).
Proof.
  cbv zeta. split; [|split; [|split]].
  1-3: unfold determine_severity; rewrite <- !contains_mentions;
    destruct (contains "connectivity" (lower category));
    destruct (contains "unreachable" (lower description));
    destruct (contains "interface" (lower category));
    destruct (contains "down" (lower description));
    cbn [orb andb];
    try reflexivity;
    try (now destruct (contains "high" (lower description)
                       && (contains "cpu" (lower description)
                           || contains "memory" (lower description))));
    intuition (auto; discriminate).
  intros device_name fw w.
  destruct (create_defect_run device_name category description fw w)
    as (d & Hrun & Hd).
  exists d. do 2 eexists. split; [exact Hrun|]. apply Hd.
Qed.

(** ** Connectivity check *)

Lemma created_one device_name category n issue ds :
  created device_name category n [issue] ds ->
  exists d, ds = [d] /\ defect_for device_name category n issue d.
Proof.
  intros H. inversion H as [|? ? ? d ds' Hd Hrest]; subst.
  inversion Hrest; subst. now exists d.
Qed.

Lemma created_none device_name category n ds :
  created device_name category n [] ds -> ds = [].
Proof. now inversion 1. Qed.

(** C2. For a registered device whose adapter answers, the connectivity
    check passes without a defect exactly when the response time is positive
    and the port is open; otherwise it fails with the single issue
    "Connectivity failed - device unreachable" and exactly one defect, of
    category connectivity and severity CRITICAL. *)
Theorem connectivity_verdict adapter device_name device fw w rt po w1 w2 :
  get (device_configs fw) device_name = Some device ->
  simulate_ping adapter (ip device) (tick w) = (Ok rt, w1) ->
  simulate_port_check adapter (ip device) (management_port device) w1 = (Ok po, w2) ->
  exists r ds w',
    test_device_connectivity adapter device_name fw w = (Ok r, extended fw r ds, w')
    /\ ((tr_status r = PASSED /\ ds = []) <-> ((0 <? rt)%float = true /\ po = true))
    /\ (~ ((0 <? rt)%float = true /\ po = true) ->
        tr_status r = FAILED
        /\ issues_of r = ["Connectivity failed - device unreachable"]
        /\ exists d,
            ds = [d]
            /\ df_device d = device_name
            /\ df_category d = "connectivity"
            /\ df_description d = "Connectivity failed - device unreachable"
            /\ df_severity d = CRITICAL).
Proof.
  intros Hget Hping Hport.
  destruct (connectivity_answered adapter device_name device fw w rt po w1 w2
              Hget Hping Hport) as (r & ds & w' & Hrun & Hdev & Hcase).
  exists r, ds, w'. split; [exact Hrun|].
  destruct (0 <? rt)%float, po; cbn [andb] in Hcase.
  1: { destruct Hcase as (Hst & Hdet & ->). split; [tauto|]. tauto. }
  all: destruct Hcase as (Hst & Hdet & Hds);
    apply created_one in Hds as (d & -> & Hid & Hd1 & Hd2 & Hd3 & Hd4 & Hd5);
    (split;
     [ split; [ intros [H _]; congruence | intros [? ?]; discriminate ]
     | intros _; split; [exact Hst|]; split;
       [ unfold issues_of; now rewrite Hdet
       | exists d; repeat split; try assumption; rewrite Hd4; reflexivity ] ]).
Qed.

Lemma connectivity_verdict_witness :
  exists r ds w',
    test_device_connectivity simulator "optical_device_1" (init None) (steady_world 0.5)
    = (Ok r, extended (init None) r ds, w')
    /\ ((tr_status r = PASSED /\ ds = []) <-> ((0 <? 25.5)%float = true /\ true = true))
    /\ (~ ((0 <? 25.5)%float = true /\ true = true) ->
        tr_status r = FAILED
        /\ issues_of r = ["Connectivity failed - device unreachable"]
        /\ exists d,
            ds = [d]
            /\ df_device d = "optical_device_1"
            /\ df_category d = "connectivity"
            /\ df_description d = "Connectivity failed - device unreachable"
            /\ df_severity d = CRITICAL).
Proof.
  apply (connectivity_verdict simulator "optical_device_1"
           (mkDevice "192.168.1.100" "optical_transponder" 8080 4 ["REST"; "SNMP"; "CLI"])
           (init None) (steady_world 0.5) 25.5 true
           (tick (tick (steady_world 0.5))) (tick (tick (tick (steady_world 0.5)))));
    reflexivity.
Defined.

(** ** Unknown devices *)

Section UnknownDevice.

Variable float_repr : float -> string.

Lemma sim_rest_call_unknown cfg device_name endpoint :
  get cfg device_name = None ->
  sim_rest_call cfg device_name endpoint = RespError "Device not found".
Proof. intros H. unfold sim_rest_call. now rewrite H. Qed.

Lemma status_unknown_run device_name fw w :
  get (device_configs fw) device_name = None ->
  exists r d w',
    test_device_status float_repr simulator device_name fw w
    = (Ok r, extended fw r [d], w')
    /\ tr_status r = FAILED
    /\ issues_of r = ["Device not found"]
    /\ df_device d = device_name
    /\ df_category d = "performance"
    /\ df_description d = "Device not found"
    /\ df_severity d = MINOR.
Proof.
  intros Hget.
  destruct (status_answered float_repr simulator device_name fw w
              (RespError "Device not found") (tick w)) as (r & ds & w' & Hrun & Hdev & Hst & Hdet & Hds).
  { cbn [simulate_rest_call simulator]. now rewrite sim_rest_call_unknown. }
  cbn in Hst, Hdet, Hds.
  apply created_one in Hds as (d & -> & Hid & Hd1 & Hd2 & Hd3 & Hd4 & Hd5).
  exists r, d, w'. repeat split; try assumption.
  unfold issues_of. now rewrite Hdet.
Qed.

(** C10. For a device name absent from the registry, the status check of the
    simulator records a FAILED outcome (not ERROR) whose only issue is
    "Device not found", and creates exactly one defect for it, of category
    performance and severity MINOR. *)
Theorem status_unknown_device device_name fw w :
  get (device_configs fw) device_name = None ->
  exists r d w',
    test_device_status float_repr simulator device_name fw w
    = (Ok r, extended fw r [d], w')
    /\ test_results (extended fw r [d]) = (test_results fw ++ [r])%list
    /\ defects (extended fw r [d]) = (defects fw ++ [d])%list
    /\ tr_status r = FAILED
    /\ tr_status r <> ERROR
    /\ issues_of r = ["Device not found"]
    /\ df_device d = device_name
    /\ df_category d = "performance"
    /\ df_description d = "Device not found"
    /\ df_severity d = MINOR.
Proof.
  intros Hget.
  destruct (status_unknown_run device_name fw w Hget)
    as (r & d & w' & Hrun & Hst & His & Hdev & Hcat & Hdesc & Hsev).
  exists r, d, w'. split; [exact Hrun|].
  split; [reflexivity|]. split; [reflexivity|].
  split; [exact Hst|]. split; [congruence|].
  repeat split; assumption.
Qed.

Lemma interface_unknown_device device_name fw w :
  get (device_configs fw) device_name = None ->
  exists r d w',
    test_interface_status simulator device_name fw w
    = (Ok r, extended fw r [d], w')
    /\ tr_status r = FAILED
    /\ issues_of r = ["Device not found"]
    /\ df_device d = device_name
    /\ df_category d = "interface"
    /\ df_description d = "Device not found"
    /\ df_severity d = MINOR.
Proof.
  intros Hget.
  destruct (interface_answered simulator device_name fw w
              (RespError "Device not found") (tick w)) as (r & ds & w' & Hrun & Hdev & Hst & Hdet & Hds).
  { cbn [simulate_rest_call simulator]. now rewrite sim_rest_call_unknown. }
  cbn in Hst, Hdet, Hds.
  apply created_one in Hds as (d & -> & Hid & Hd1 & Hd2 & Hd3 & Hd4 & Hd5).
  exists r, d, w'. repeat split; try assumption.
  unfold issues_of. now rewrite Hdet.
Qed.

Lemma alarm_unknown_device device_name fw w :
  get (device_configs fw) device_name = None ->
  exists r w',
    test_alarm_monitoring simulator device_name fw w = (Ok r, extended fw r [], w')
    /\ tr_status r = PASSED
    /\ tr_detail r = DAlarm [] 0.
Proof.
  intros Hget.
  destruct (alarm_answered simulator device_name fw w
              (RespError "Device not found") (tick w)) as (r & Hrun & Hdev & Hst & Hdet).
  { cbn [simulate_rest_call simulator]. now rewrite sim_rest_call_unknown. }
  exists r. eexists. split; [exact Hrun|]. now split.
Qed.

End UnknownDevice.

Lemma status_unknown_device_witness :
  exists r d w',
    test_device_status sample_repr simulator "ghost" (init None) (steady_world 0.5)
    = (Ok r, extended (init None) r [d], w')
    /\ test_results (extended (init None) r [d]) = (test_results (init None) ++ [r])%list
    /\ defects (extended (init None) r [d]) = (defects (init None) ++ [d])%list
    /\ tr_status r = FAILED
    /\ tr_status r <> ERROR
    /\ issues_of r = ["Device not found"]
    /\ df_device d = "ghost"
    /\ df_category d = "performance"
    /\ df_description d = "Device not found"
    /\ df_severity d = MINOR.
Proof.
  apply (status_unknown_device sample_repr "ghost" (init None) (steady_world 0.5)).
  reflexivity.
Defined.

(** C1, as the code has it. For a device name absent from the registry, the
    suite of the simulator records four outcomes for that device, in order:
    the connectivity outcome, FAILED with the description "Device
    configuration not found" and without a defect; the status and the
    interface outcomes, each FAILED with the issue "Device not found" and one
    MINOR defect (performance, then interface); and the alarm outcome,
    PASSED. *)
Theorem suite_unknown_device float_repr device_name fw w :
  get (device_configs fw) device_name = None ->
  exists r1 r2 r3 r4 d2 d3 fw' w',
    run_test_suite float_repr simulator (Some [device_name]) fw w = (Ok tt, fw', w')
    /\ test_results fw' = (test_results fw ++ [r1; r2; r3; r4])%list
    /\ defects fw' = (defects fw ++ [d2; d3])%list
    /\ (tr_status r1 = FAILED /\ issues_of r1 = ["Device configuration not found"])
    /\ (tr_status r2 = FAILED /\ issues_of r2 = ["Device not found"])
    /\ (tr_status r3 = FAILED /\ issues_of r3 = ["Device not found"])
    /\ tr_status r4 = PASSED
    /\ (df_category d2 = "performance" /\ df_severity d2 = MINOR
        /\ df_description d2 = "Device not found")
    /\ (df_category d3 = "interface" /\ df_severity d3 = MINOR
        /\ df_description d3 = "Device not found").
Proof.
  intros Hget.
  destruct (connectivity_unknown simulator device_name fw w Hget)
    as (r1 & Hrun1 & Hst1 & _ & Hdet1).
  destruct (status_unknown_run float_repr device_name (extended fw r1 []) (tick (tick w)) Hget)
    as (r2 & d2 & w2 & Hrun2 & Hst2 & His2 & _ & Hc2 & Hdesc2 & Hsev2).
  destruct (interface_unknown_device device_name (extended (extended fw r1 []) r2 [d2]) w2 Hget)
    as (r3 & d3 & w3 & Hrun3 & Hst3 & His3 & _ & Hc3 & Hdesc3 & Hsev3).
  destruct (alarm_unknown_device device_name
              (extended (extended (extended fw r1 []) r2 [d2]) r3 [d3]) w3 Hget)
    as (r4 & w4 & Hrun4 & Hst4 & _).
  exists r1, r2, r3, r4, d2, d3. do 2 eexists.
  split.
  { unfold run_test_suite. erewrite bind_ok by reflexivity. cbn [for_each].
    erewrite bind_ok; [reflexivity|].
    erewrite bind_ok by exact Hrun1.
    erewrite bind_ok by exact Hrun2.
    erewrite bind_ok by exact Hrun3.
    erewrite bind_ok by exact Hrun4.
    reflexivity. }
  cbn [extended test_results defects]. rewrite <- !app_assoc. cbn [app].
  repeat split; try assumption.
  unfold issues_of. now rewrite Hdet1.
Qed.

Lemma suite_unknown_device_witness :
  exists r1 r2 r3 r4 d2 d3 fw' w',
    run_test_suite sample_repr simulator (Some ["ghost"]) (init None) (steady_world 0.5)
    = (Ok tt, fw', w')
    /\ test_results fw' = (test_results (init None) ++ [r1; r2; r3; r4])%list
    /\ defects fw' = (defects (init None) ++ [d2; d3])%list
    /\ (tr_status r1 = FAILED /\ issues_of r1 = ["Device configuration not found"])
    /\ (tr_status r2 = FAILED /\ issues_of r2 = ["Device not found"])
    /\ (tr_status r3 = FAILED /\ issues_of r3 = ["Device not found"])
    /\ tr_status r4 = PASSED
    /\ (df_category d2 = "performance" /\ df_severity d2 = MINOR
        /\ df_description d2 = "Device not found")
    /\ (df_category d3 = "interface" /\ df_severity d3 = MINOR
        /\ df_description d3 = "Device not found").
Proof.
  apply (suite_unknown_device sample_repr "ghost" (init None) (steady_world 0.5)).
  reflexivity.
Defined.

(** C1, as the specification words it, fails on the default registry: the
    suite run for the unknown device "ghost" does not leave exactly one
    outcome, of status ERROR, and no defect. *)
Lemma suite_unknown_device_counterexample :
  get (device_configs (init None)) "ghost" = None
  /\ let '(_, fw', _) :=
       run_test_suite sample_repr simulator (Some ["ghost"]) (init None)
         (steady_world 0.5) in
     ~ (exists r,
          test_results fw' = (test_results (init None) ++ [r])%list
          /\ tr_status r = ERROR
          /\ issues_of r = ["Device configuration not found"]
          /\ defects fw' = defects (init None))
     /\ map tr_status (test_results fw') = [FAILED; FAILED; FAILED; PASSED]
     /\ length (defects fw') = 2.
Proof.
  split; [reflexivity|].
  vm_compute. split; [|split; reflexivity].
  intros (r & Hres & _). discriminate Hres.
Qed.

(** ** Floats and their renderings *)

Lemma SFcompare_antisym (x y : spec_float) :
  SFcompare y x = option_map CompOpp (SFcompare x y).
Proof.
  destruct x as [s| s | | s m e], y as [s'| s' | | s' m' e']; simpl;
    try destruct s; try destruct s'; try reflexivity.
  - rewrite (Z.compare_antisym e e'). destruct (e ?= e')%Z; simpl; try reflexivity.
    now rewrite (Pos.compare_cont_antisym m m' Eq).
  - rewrite (Z.compare_antisym e e'). destruct (e ?= e')%Z; simpl; try reflexivity.
    now rewrite (Pos.compare_cont_antisym m m' Eq).
Qed.

(** A float at or below a threshold is not above it. *)
Lemma float_le_not_gt (x y : float) :
  (x <=? y)%float = true -> (y <? x)%float = false.
Proof.
  rewrite FloatAxioms.leb_spec, FloatAxioms.ltb_spec. unfold SFleb, SFltb.
  rewrite (SFcompare_antisym (Prim2SF x) (Prim2SF y)).
  now destruct (SFcompare (Prim2SF x) (Prim2SF y)) as [[| |]|].
Qed.

Lemma numeric_text_app (a b : string) :
  numeric_text a -> numeric_text b -> numeric_text (a ++ b).
Proof. unfold numeric_text. rewrite chars_app. apply Forall_app_2. Qed.

Lemma numeric_text_uint (d : Decimal.uint) : numeric_text (NilEmpty.string_of_uint d).
Proof.
  unfold numeric_text.
  induction d; cbn [NilEmpty.string_of_uint chars]; constructor; auto;
    cbv; tauto.
Qed.

Lemma numeric_text_literal (s : string) :
  forallb (fun c => existsb (Ascii.eqb c) numeric_chars) (chars s) = true ->
  numeric_text s.
Proof.
  unfold numeric_text. rewrite forallb_forall, Forall_forall.
  intros H c Hc. apply list_elem_of_In in Hc. specialize (H c Hc).
  apply existsb_exists in H as (c' & Hin & Heq).
  apply Ascii.eqb_eq in Heq. now subst.
Qed.

Lemma numeric_text_int (z : Z) : numeric_text (str_int z).
Proof.
  unfold str_int, NilZero.string_of_int, NilZero.string_of_uint.
  destruct (Z.to_int z) as [d|d].
  - destruct d; first [apply numeric_text_uint | apply numeric_text_literal; reflexivity].
  - apply (numeric_text_app "-"); [apply numeric_text_literal; reflexivity|].
    destruct d; first [apply numeric_text_uint | apply numeric_text_literal; reflexivity].
Qed.

Lemma numeric_text_sample_repr (x : float) : numeric_text (sample_repr x).
Proof.
  unfold sample_repr, format_1f.
  destruct (Prim2SF x) as [[|]|[|]| |[|] m e];
    try (apply numeric_text_literal; reflexivity).
  all: repeat apply numeric_text_app;
    try apply numeric_text_int; apply numeric_text_literal; reflexivity.
Qed.

(** ** Status check *)

Lemma not_mentioned (word text : string) (c : ascii) :
  In c (chars word) ->
  Forall (fun c' => lower_ascii c' <> c) (chars text) ->
  contains word (lower text) = false.
Proof.
  intros Hc Hall. destruct (contains word (lower text)) eqn:E; [|reflexivity].
  exfalso. apply (contains_chars _ _ c E) in Hc.
  rewrite chars_lower in Hc. apply in_map_iff in Hc as (c' & Heq & Hin).
  rewrite Forall_forall in Hall. apply (Hall c'); [|exact Heq].
  now apply list_elem_of_In.
Qed.

Lemma numeric_text_no_b (r : string) :
  numeric_text r -> Forall (fun c => lower_ascii c <> "b"%char) (chars r).
Proof.
  unfold numeric_text. induction 1 as [|c l Hc _ IH]; constructor; [|exact IH].
  cbv in Hc. intuition (subst; discriminate).
Qed.

(** An issue made of fixed text around a rendered number never mentions
    "unreachable", so a performance defect for it is MINOR. *)
Lemma performance_issue_minor (pre r post : string) :
  numeric_text r ->
  forallb (fun c => negb (Ascii.eqb (lower_ascii c) "b")) (chars pre) = true ->
  forallb (fun c => negb (Ascii.eqb (lower_ascii c) "b")) (chars post) = true ->
  determine_severity "performance" (pre ++ r ++ post) = MINOR.
Proof.
  intros Hr Hpre Hpost.
  assert (Hlit : forall s,
             forallb (fun c => negb (Ascii.eqb (lower_ascii c) "b")) (chars s) = true ->
             Forall (fun c => lower_ascii c <> "b"%char) (chars s)).
  { intros s H. rewrite forallb_forall in H. apply Forall_forall. intros c Hc.
    apply list_elem_of_In in Hc. specialize (H c Hc).
    apply negb_true_iff, Ascii.eqb_neq in H. exact H. }
  unfold determine_severity.
  rewrite (not_mentioned "unreachable" (pre ++ r ++ post) "b").
  - now destruct (contains "high" (lower (pre ++ r ++ post))
                  && (contains "cpu" (lower (pre ++ r ++ post))
                      || contains "memory" (lower (pre ++ r ++ post)))).
  - cbv. tauto.
  - rewrite !chars_app. repeat apply Forall_app_2; auto using numeric_text_no_b.
Qed.

Lemma evaluate_status_payload float_repr st up cpu mem temp n :
  evaluate_status float_repr (RespStatus st up cpu mem temp n)
  = (negb (80.0 <? cpu)%float && negb (90.0 <? mem)%float && negb (60.0 <? temp)%float,
     breach_issues float_repr cpu mem temp).
Proof.
  unfold evaluate_status, breach_issues, append,
    cpu_usage_threshold, memory_usage_threshold, temperature_threshold.
  cbn [has_error get_cpu_usage get_memory_usage get_temperature].
  now destruct (80.0 <? cpu)%float, (90.0 <? mem)%float, (60.0 <? temp)%float.
Qed.

Lemma created_Forall2 device_name category n issues ds severity :
  created device_name category n issues ds ->
  Forall (fun issue => determine_severity category issue = severity) issues ->
  Forall2 (fun issue d =>
             df_device d = device_name
             /\ df_category d = category
             /\ df_description d = issue
             /\ df_severity d = severity) issues ds.
Proof.
  induction 1 as [|n issue issues d ds (_ & H1 & H2 & H3 & H4 & _) _ IH];
    intros Hall; constructor; inversion Hall; subst; auto.
Qed.

Section StatusCheck.

Variable float_repr : float -> string.
Hypothesis float_repr_numeric : forall x, numeric_text (float_repr x).

Lemma breach_issues_minor cpu mem temp :
  Forall (fun issue => determine_severity "performance" issue = MINOR)
         (breach_issues float_repr cpu mem temp).
Proof.
  unfold breach_issues. cbn [List.concat].
  destruct (80.0 <? cpu)%float, (90.0 <? mem)%float, (60.0 <? temp)%float;
    cbn [app]; repeat constructor;
    apply performance_issue_minor; auto.
Qed.

(** C3. For a status payload, the issues of the status check are one per
    metric strictly above its threshold (CPU 80.0, memory 90.0, temperature
    60.0), each naming the metric and its value; the outcome is PASSED when
    every metric is at or below its threshold and FAILED as soon as one is
    above; and the defects created are one per issue, in order, of category
    performance and severity MINOR. *)
Theorem status_verdict adapter device_name fw w st up cpu mem temp n w1 :
  simulate_rest_call adapter (device_configs fw) device_name "/system/status" (tick w)
  = (Ok (RespStatus st up cpu mem temp n), w1) ->
  exists r ds w',
    test_device_status float_repr adapter device_name fw w = (Ok r, extended fw r ds, w')
    /\ issues_of r = breach_issues float_repr cpu mem temp
    /\ ((cpu <=? 80.0)%float = true /\ (mem <=? 90.0)%float = true
        /\ (temp <=? 60.0)%float = true ->
        tr_status r = PASSED /\ issues_of r = [] /\ ds = [])
    /\ (tr_status r = FAILED <->
        (80.0 <? cpu)%float = true \/ (90.0 <? mem)%float = true
        \/ (60.0 <? temp)%float = true)
    /\ Forall2 (fun issue d =>
                  df_device d = device_name
                  /\ df_category d = "performance"
                  /\ df_description d = issue
                  /\ df_severity d = MINOR) (issues_of r) ds.
Proof.
  intros Hcall.
  destruct (status_answered float_repr adapter device_name fw w _ w1 Hcall)
    as (r & ds & w' & Hrun & Hdev & Hst & Hdet & Hds).
  rewrite evaluate_status_payload in Hst, Hdet, Hds. cbn [fst snd] in Hst, Hdet, Hds.
  assert (His : issues_of r = breach_issues float_repr cpu mem temp)
    by (unfold issues_of; now rewrite Hdet).
  exists r, ds, w'. split; [exact Hrun|]. split; [exact His|].
  split; [|split].
  - intros (Hc & Hm & Ht).
    apply float_le_not_gt in Hc, Hm, Ht.
    rewrite His. unfold breach_issues.
    rewrite Hc, Hm, Ht in *. cbn in Hst, Hds |- *.
    apply created_none in Hds. auto.
  - rewrite Hst.
    destruct (80.0 <? cpu)%float, (90.0 <? mem)%float, (60.0 <? temp)%float;
      cbn; intuition (auto; discriminate).
  - rewrite His.
    assert (Hall := breach_issues_minor cpu mem temp).
    destruct (negb (80.0 <? cpu)%float && negb (90.0 <? mem)%float
              && negb (60.0 <? temp)%float) eqn:Hpass.
    + apply created_none in Hds. subst ds.
      unfold breach_issues.
      destruct (80.0 <? cpu)%float, (90.0 <? mem)%float, (60.0 <? temp)%float;
        try discriminate Hpass. constructor.
    + now apply (created_Forall2 _ _ _ _ _ MINOR) in Hds.
Qed.

End StatusCheck.

Lemma status_verdict_witness :
  exists r ds w',
    test_device_status sample_repr (answering hot_status) "optical_device_1"
      (init None) (steady_world 0.5)
    = (Ok r, extended (init None) r ds, w')
    /\ issues_of r = breach_issues sample_repr 85.5 45.8 71.0
    /\ ((85.5 <=? 80.0)%float = true /\ (45.8 <=? 90.0)%float = true
        /\ (71.0 <=? 60.0)%float = true ->
        tr_status r = PASSED /\ issues_of r = [] /\ ds = [])
    /\ (tr_status r = FAILED <->
        (80.0 <? 85.5)%float = true \/ (90.0 <? 45.8)%float = true
        \/ (60.0 <? 71.0)%float = true)
    /\ Forall2 (fun issue d =>
                  df_device d = "optical_device_1"
                  /\ df_category d = "performance"
                  /\ df_description d = issue
                  /\ df_severity d = MINOR) (issues_of r) ds.
Proof.
  apply (status_verdict sample_repr numeric_text_sample_repr (answering hot_status)
           "optical_device_1" (init None) (steady_world 0.5)
           "operational" "72:15:30" 85.5 45.8 71.0 4 (tick (steady_world 0.5))).
  reflexivity.
Defined.

(** The issues of the hot device, as the check words them. *)
Example hot_status_issues :
  breach_issues sample_repr 85.5 45.8 71.0
  = ["High CPU usage: 85.5%"; "High temperature: 71.0Â°C"].
Proof. reflexivity. Qed.

(** ** Interface check *)

Lemma evaluate_interfaces_payload interfaces expected :
  evaluate_interfaces (RespInterfaces interfaces) expected
  = (match interface_issues expected interfaces with [] => true | _ => false end,
     interface_issues expected interfaces).
Proof.
  unfold evaluate_interfaces, interface_issues, append, extend.
  cbn [has_error get_interfaces List.concat].
  destruct (Z.of_nat (length interfaces) =? expected)%Z; cbn [negb app];
    destruct (List.filter _ interfaces); cbn [map app]; rewrite ?app_nil_r; reflexivity.
Qed.

Lemma all_up_iff (interfaces : list Interface) :
  List.filter (fun iface => negb (String.eqb (if_status iface) "up")) interfaces = []
  <-> List.Forall (fun iface => if_status iface = "up") interfaces.
Proof.
  induction interfaces as [|iface l IH]; cbn [List.filter].
  - split; constructor.
  - destruct (String.eqb_spec (if_status iface) "up") as [E|E]; cbn [negb].
    + rewrite IH. split; [now constructor | now inversion 1].
    + split; [discriminate | inversion 1; contradiction].
Qed.



Lemma created_defects device_name category n issues ds :
  created device_name category n issues ds ->
  Forall2 (fun issue d =>
             df_device d = device_name
             /\ df_category d = category
             /\ df_description d = issue
             /\ df_severity d = determine_severity category issue) issues ds.
Proof.
  induction 1 as [|n issue issues d ds (_ & H1 & H2 & H3 & H4 & _) _ IH];
    constructor; auto.
Qed.




(** ** Defects and failed outcomes *)

Section Accounting.

Variable float_repr : float -> string.
Variable adapter : Adapter.

Lemma created_accounted device_name category n issues ds r :
  created device_name category n issues ds ->
  tr_status r = FAILED ->
  tr_device r = Some device_name ->
  issues_of r = issues ->
  List.Forall (fun d => df_device d = device_name /\ accounts_for r d) ds.
Proof.
  intros Hds Hst Hdev His. apply created_defects in Hds.
  assert (Hsub : forall i, In i issues -> In i (issues_of r)) by (now rewrite His).
  clear His. induction Hds as [|issue d issues ds' (H1 & _ & H3 & _) _ IH];
    constructor.
  - split; [exact H1|]. unfold accounts_for. rewrite H1, H3.
    repeat split; auto. apply Hsub. now left.
  - apply IH. intros i Hi. apply Hsub. now right.
Qed.

Lemma created_sequential device_name category n issues ds :
  created device_name category n issues ds -> sequential_from n ds.
Proof.
  induction 1 as [|n issue issues d ds (Hid & _) _ IH]; intros k d' Hk.
  - now destruct k.
  - destruct k as [|k]; cbn in Hk.
    + injection Hk as <-. now rewrite Nat.add_0_r.
    + rewrite (IH k d' Hk). do 3 f_equal. lia.
Qed.

Lemma nothing_created device_name r n :
  (tr_status r <> FAILED -> @nil Defect = [])
  /\ List.Forall (fun d => df_device d = device_name /\ accounts_for r d) []
  /\ sequential_from n [].
Proof.
  split; [reflexivity|]. split; [constructor|]. intros k d Hk. now destruct k.
Qed.

Lemma connectivity_step device_name :
  check_step device_name (test_device_connectivity adapter device_name).
Proof.
  intros fw w.
  destruct (get (device_configs fw) device_name) as [device|] eqn:Hget.
  - destruct (simulate_ping adapter (ip device) (tick w)) as [[rt|e] w1] eqn:Hping.
    + destruct (simulate_port_check adapter (ip device) (management_port device) w1)
        as [[po|e] w2] eqn:Hport.
      * destruct (connectivity_answered adapter device_name device fw w rt po w1 w2
                    Hget Hping Hport) as (r & ds & w' & Hrun & Hdev & Hcase).
        exists r, ds, w'. split; [exact Hrun|].
        destruct ((0 <? rt)%float && po).
        -- destruct Hcase as (_ & _ & ->). apply nothing_created.
        -- destruct Hcase as (Hst & Hdet & Hds). split; [congruence|].
           split; [|now apply created_sequential in Hds].
           apply (created_accounted _ _ _ _ _ r Hds Hst Hdev).
           unfold issues_of. now rewrite Hdet.
      * destruct (connectivity_port_raises adapter device_name device fw w rt e w1 w2
                    Hget Hping Hport) as (r & Hrun & _).
        exists r, [], (tick (tick w2)). split; [exact Hrun|].
        apply nothing_created.
    + destruct (connectivity_ping_raises adapter device_name device fw w e w1 Hget Hping)
        as (r & Hrun & _).
      exists r, [], (tick (tick w1)). split; [exact Hrun|].
      apply nothing_created.
  - destruct (connectivity_unknown adapter device_name fw w Hget) as (r & Hrun & _).
    exists r, [], (tick (tick w)). split; [exact Hrun|].
    apply nothing_created.
Qed.

Lemma status_step device_name :
  check_step device_name (test_device_status float_repr adapter device_name).
Proof.
  intros fw w.
  destruct (simulate_rest_call adapter (device_configs fw) device_name "/system/status"
              (tick w)) as [[data|e] w1] eqn:Hcall.
  - destruct (status_answered float_repr adapter device_name fw w data w1 Hcall)
      as (r & ds & w' & Hrun & Hdev & Hst & Hdet & Hds).
    exists r, ds, w'. split; [exact Hrun|].
    destruct (fst (evaluate_status float_repr data)).
    + apply created_none in Hds. subst ds. apply nothing_created.
    + split; [congruence|]. split; [|now apply created_sequential in Hds].
      apply (created_accounted _ _ _ _ _ r Hds Hst Hdev).
      unfold issues_of. now rewrite Hdet.
  - destruct (status_raises float_repr adapter device_name fw w e w1 Hcall)
      as (r & Hrun & _).
    exists r, [], (tick (tick w1)). split; [exact Hrun|].
    apply nothing_created.
Qed.

Lemma interface_step device_name :
  check_step device_name (test_interface_status adapter device_name).
Proof.
  intros fw w.
  destruct (simulate_rest_call adapter (device_configs fw) device_name "/interfaces"
              (tick w)) as [[data|e] w1] eqn:Hcall.
  - destruct (interface_answered adapter device_name fw w data w1 Hcall)
      as (r & ds & w' & Hrun & Hdev & Hst & Hdet & Hds).
    exists r, ds, w'. split; [exact Hrun|].
    destruct (fst (evaluate_interfaces data _)).
    + apply created_none in Hds. subst ds. apply nothing_created.
    + split; [congruence|]. split; [|now apply created_sequential in Hds].
      apply (created_accounted _ _ _ _ _ r Hds Hst Hdev).
      unfold issues_of. now rewrite Hdet.
  - destruct (interface_raises adapter device_name fw w e w1 Hcall) as (r & Hrun & _).
    exists r, [], (tick (tick w1)). split; [exact Hrun|].
    apply nothing_created.
Qed.

Lemma alarm_step device_name :
  check_step device_name (test_alarm_monitoring adapter device_name).
Proof.
  intros fw w.
  destruct (simulate_rest_call adapter (device_configs fw) device_name "/alarms"
              (tick w)) as [[data|e] w1] eqn:Hcall.
  - destruct (alarm_answered adapter device_name fw w data w1 Hcall) as (r & Hrun & _).
    exists r, [], (tick (tick w1)). split; [exact Hrun|].
    apply nothing_created.
  - destruct (alarm_raises adapter device_name fw w e w1 Hcall) as (r & Hrun & _).
    exists r, [], (tick (tick w1)). split; [exact Hrun|].
    apply nothing_created.
Qed.

End Accounting.

(** ** Invariants of a run *)

Lemma keeps_ret {A} (I : Framework -> Prop) (a : A) : keeps I (mret a).
Proof. intros fw w H. now exists a, fw, w. Qed.

Lemma keeps_gets {A} (I : Framework -> Prop) (f : Framework -> A) : keeps I (gets f).
Proof. intros fw w H. now exists (f fw), fw, w. Qed.

Lemma keeps_bind {A B} (I : Framework -> Prop) (m : M A) (k : A -> M B) :
  keeps I m -> (forall a, keeps I (k a)) -> keeps I (m ≫= k).
Proof.
  intros Hm Hk fw w H.
  destruct (Hm fw w H) as (a & fw1 & w1 & Hrun & H1).
  destruct (Hk a fw1 w1 H1) as (b & fw2 & w2 & Hrun2 & H2).
  exists b, fw2, w2. split; [|exact H2].
  now rewrite (bind_ok _ _ _ _ _ _ _ Hrun).
Qed.

Lemma keeps_for_each {A} (I : Framework -> Prop) (l : list A) (body : A -> M unit) :
  (forall x, keeps I (body x)) -> keeps I (for_each l body).
Proof.
  intros Hbody. induction l as [|x l IH]; cbn [for_each].
  - apply keeps_ret.
  - apply keeps_bind; [apply Hbody | intros _; exact IH].
Qed.

Section Suite.

Variable float_repr : float -> string.
Variable adapter : Adapter.

Lemma checks_step check device_name :
  In check (checks float_repr adapter) -> check_step device_name (check device_name).
Proof.
  intros [<-|[<-|[<-|[<-|[]]]]].
  - apply connectivity_step.
  - apply status_step.
  - apply interface_step.
  - apply alarm_step.
Qed.

(** The suite keeps every invariant that each of the four checks keeps. *)
Lemma suite_keeps (I : Framework -> Prop) device_names :
  (forall check device_name,
      In check (checks float_repr adapter) -> keeps I (check device_name)) ->
  keeps I (run_test_suite float_repr adapter device_names).
Proof.
  intros Hchecks. unfold run_test_suite.
  apply keeps_bind.
  - destruct device_names; [apply keeps_ret | apply keeps_gets].
  - intros names. apply keeps_for_each. intros device_name.
    repeat (apply keeps_bind; [apply Hchecks; cbn; tauto | intros _]).
    apply keeps_ret.
Qed.

Lemma step_keeps_accounted device_name check :
  check_step device_name check -> keeps defects_accounted check.
Proof.
  intros Hstep fw w Hinv.
  destruct (Hstep fw w) as (r & ds & w' & Hrun & _ & Hds & _).
  exists r, (extended fw r ds), w'. split; [exact Hrun|].
  unfold defects_accounted, extended. cbn [test_results defects].
  apply List.Forall_app. split.
  - eapply List.Forall_impl; [|exact Hinv].
    intros d (r0 & Hin & Hacc). exists r0. split; [|exact Hacc].
    apply in_or_app. now left.
  - eapply List.Forall_impl; [|exact Hds].
    intros d (_ & Hacc). exists r. split; [|exact Hacc].
    apply in_or_app. right. now left.
Qed.



End Suite.

(** C6. Whatever the adapter does, each of the four checks records one
    outcome and creates defects only when that outcome is FAILED (never for
    an ERROR or a PASSED one), each defect being about the checked device and
    described by one of the outcome's issues; hence after any suite run,
    also a repeated one, every defect of the framework is accounted for by a
    recorded FAILED outcome. *)
Theorem defects_from_failed_outcomes float_repr adapter :
  (forall check device_name fw w,
      In check (checks float_repr adapter) ->
      exists r ds w',
        check device_name fw w = (Ok r, extended fw r ds, w')
        /\ (tr_status r = ERROR -> ds = [])
        /\ (tr_status r = PASSED -> ds = [])
        /\ List.Forall (accounts_for r) ds)
  /\ (forall config, defects_accounted (init config))
  /\ (forall device_names fw w,
        defects_accounted fw ->
        exists fw' w',
          run_test_suite float_repr adapter device_names fw w = (Ok tt, fw', w')
          /\ defects_accounted fw').
Proof.
  split; [|split].
  - intros check device_name fw w Hin.
    destruct (checks_step float_repr adapter check device_name Hin fw w)
      as (r & ds & w' & Hrun & Hnone & Hds & _).
    exists r, ds, w'. split; [exact Hrun|].
    split; [intros H; apply Hnone; congruence|].
    split; [intros H; apply Hnone; congruence|].
    eapply List.Forall_impl; [|exact Hds]. now intros d [_ H].
  - intros config. constructor.
  - intros device_names fw w Hinv.
    destruct (suite_keeps float_repr adapter defects_accounted device_names) with (fw := fw) (w := w)
      as ([] & fw' & w' & Hrun & Hinv'); [|exact Hinv|now exists fw', w'].
    intros check device_name Hin.
    apply (step_keeps_accounted device_name).
    now apply (checks_step float_repr adapter).
Qed.

(** ** Defect identifiers *)

Lemma of_uint_zeros k d : N.of_uint (zeros k d) = N.of_uint d.
Proof. induction k; cbn [zeros]; [reflexivity | exact IHk]. Qed.



(** The identifier of the [n]-th defect carries the number [n]. *)
Lemma defect_number_format (n : nat) :
  defect_number ("DEF-" ++ format_04d (Z.of_nat n + 1)) = Some (N.of_nat n + 1)%N.
Proof.
  unfold format_04d.
  destruct (Z.ltb_spec (Z.of_nat n + 1) 0) as [H|_]; [lia|].
  change (defect_number ("DEF-" ++ ?digits))
    with (option_map N.of_uint (NilEmpty.uint_of_string digits)).
  rewrite NilEmpty.usu. cbn [option_map].
  rewrite of_uint_zeros, DecimalN.Unsigned.of_to. f_equal. lia.
Qed.


Lemma report_run fw w :
  exists report, generate_test_report fw w = (Ok report, fw, tick w).
Proof. unfold generate_test_report. run_m. eexists. reflexivity. Qed.

Section Reachable.

Variable float_repr : float -> string.
Variable adapter : Adapter.



End Reachable.


Lemma after_default_run_reachable : reachable sample_repr simulator after_default_run.
Proof.
  apply (reach_call sample_repr simulator (init None) (CallRunSuite None)
           (steady_world 0.5)
           (fst (fst (run_test_suite sample_repr simulator None (init None)
                        (steady_world 0.5))))
           after_default_run
           (snd (run_test_suite sample_repr simulator None (init None)
                   (steady_world 0.5)))).
  - apply reach_init.
  - vm_compute. reflexivity.
Qed.


(** The identifiers of the demonstration, and the format beyond four digits. *)
Example default_run_ids :
  map defect_id (defects after_default_run) = ["DEF-0001"; "DEF-0002"]
  /\ format_04d 42 = "0042" /\ format_04d 10000 = "10000".
Proof. vm_compute. auto. Qed.

(** ** The report *)

Lemma generate_test_report_run fw w :
  generate_test_report fw w
  = (Ok {| test_summary :=
             {| total_tests := length (test_results fw);
                passed := count_status PASSED (test_results fw);
                failed := count_status FAILED (test_results fw);
                errors := count_status ERROR (test_results fw);
                pass_rate :=
                  if (0 <? length (test_results fw))%nat
                  then printed_rate (count_status PASSED (test_results fw))
                         (length (test_results fw))
                  else "0%" |};
           rp_test_results := test_results fw;
           defects_found := length (defects fw);
           defect_details := defects fw;
           report_generated := iso_clock w (ticks w) |},
     fw, tick w).
Proof. reflexivity. Qed.

(** Rounding to the nearest integer: the result is within one half. *)
Lemma round_half_even_nearest (num den : Z) :
  (0 < den)%Z ->
  (2 * Z.abs (round_half_even num den * den - num) <= den)%Z.
Proof.
  intros Hden. unfold round_half_even.
  pose proof (Z.div_mod num den ltac:(lia)) as Hdm.
  pose proof (Z.mod_pos_bound num den Hden) as Hr.
  destruct (Z.compare_spec (2 * (num mod den)) den) as [E|E|E];
    try destruct (Z.even (num / den)); nia.
Qed.

(** Up to thirty outcomes, the printed rate is a number of tenths of a
    percent within one twentieth of a percent of [passed / total]. *)
Example printed_rate_nearest :
  forallb (fun total =>
    forallb (fun passed =>
      let t := rate_tenths passed total in
      String.eqb (printed_rate passed total) (show_tenths t)
      && (2 * Z.abs (t * Z.of_nat total - 1000 * Z.of_nat passed)
          <=? Z.of_nat total)%Z)
      (seq 0 (S total)))
    (seq 1 30) = true.
Proof. vm_compute. reflexivity. Qed.


(** C9. Generating the report leaves the framework as it was, and two
    generations over the same results and defects, at whatever times, give
    reports that differ in the generation timestamp only. *)
Theorem report_idempotent fw w w' :
  exists report report' second,
    generate_test_report fw w = (Ok report, fw, tick w)
    /\ generate_test_report fw w' = (Ok report', fw, tick w')
    /\ erase_generated report = erase_generated report'
    /\ (generate_test_report ;; generate_test_report) fw w
       = (Ok second, fw, tick (tick w))
    /\ erase_generated second = erase_generated report.
Proof.
  do 3 eexists.
  split; [apply generate_test_report_run|].
  split; [apply generate_test_report_run|].
  split; [reflexivity|].
  split.
  - erewrite bind_ok by apply generate_test_report_run.
    apply generate_test_report_run.
  - reflexivity.
Qed.

(** ** Closed runs *)

(** Connectivity, status and interface checks of the second default device:
    three outcomes, two of them passed, and a report that says "66.7%". *)
Example two_of_three_report :
  let run :=
    test_device_connectivity simulator "microwave_device_1" ;;
    test_device_status sample_repr simulator "microwave_device_1" ;;
    test_interface_status simulator "microwave_device_1" ;;
    generate_test_report in
  match run (init None) (steady_world 0.5) with
  | (Ok report, fw, _) =>
      map tr_status (test_results fw) = [PASSED; PASSED; FAILED]
      /\ pass_rate (test_summary report) = "66.7%"
      /\ defects_found report = 1
  | _ => False
  end.
Proof. vm_compute. auto. Qed.

(** A closed port: one random draw at or below 0.05 fails the connectivity
    check with one CRITICAL defect. *)
Example closed_port_run :
  match test_device_connectivity simulator "optical_device_1" (init None)
          (steady_world 0.01) with
  | (Ok r, fw, _) =>
      tr_status r = FAILED
      /\ issues_of r = ["Connectivity failed - device unreachable"]
      /\ map df_severity (defects fw) = [CRITICAL]
      /\ map defect_id (defects fw) = ["DEF-0001"]
  | _ => False
  end.
Proof. vm_compute. auto. Qed.

(** An empty report. *)
Example empty_report :
  match generate_test_report (init None) (steady_world 0.5) with
  | (Ok report, _, _) => pass_rate (test_summary report) = "0%"
  | _ => False
  end.
Proof. vm_compute. reflexivity. Qed.

(** * Further properties *)

(** ** The shape of a suite run *)

Lemma grown_nil fw : grown fw [] [] = fw.
Proof. unfold grown. rewrite !app_nil_r. apply framework_eta. Qed.

Lemma grown_grown fw rs ds rs' ds' :
  grown (grown fw rs ds) rs' ds' = grown fw (rs ++ rs') (ds ++ ds').
Proof. unfold grown. cbn [test_results defects device_configs]. now rewrite !app_assoc. Qed.

Lemma extended_grown fw r ds : extended fw r ds = grown fw [r] ds.
Proof. reflexivity. Qed.

Section Outcomes.

Variable float_repr : float -> string.
Variable adapter : Adapter.

Lemma error_result_outcome test_name category device_name start_time e fw w :
  exists r ds w' issues,
    error_result test_name start_time e fw w = (Ok r, extended fw r ds, w')
    /\ tr_test_name r = test_name
    /\ created device_name category (length (defects fw)) issues ds.
Proof.
  unfold error_result, extended. run_m.
  eexists _, [], _, []. rewrite app_nil_r. split; [reflexivity|].
  split; [reflexivity | constructor].
Qed.

Lemma connectivity_outcome device_name :
  outcome_step "connectivity_test_" "connectivity" device_name
    (test_device_connectivity adapter device_name).
Proof.
  intros fw w. unfold test_device_connectivity. run_m.
  destruct (get (device_configs fw) device_name) as [device|].
  - run_m.
    destruct (simulate_ping adapter (ip device) (tick w)) as [[rt|e] w1];
      [|apply error_result_outcome].
    destruct (simulate_port_check adapter (ip device) (management_port device) w1)
      as [[po|e] w2]; [|apply error_result_outcome].
    destruct ((0 <? rt)%float && po).
    + run_m. eexists _, [], _, []. unfold extended. rewrite app_nil_r.
      split; [reflexivity|]. split; [reflexivity | constructor].
    + unfold create_defect. run_m. eexists _, [_], _, [_]. unfold extended.
      split; [reflexivity|]. split; [reflexivity|].
      repeat constructor.
  - run_m. eexists _, [], _, []. unfold extended. rewrite app_nil_r.
    split; [reflexivity|]. split; [reflexivity | constructor].
Qed.

Lemma status_outcome device_name :
  outcome_step "status_test_" "performance" device_name
    (test_device_status float_repr adapter device_name).
Proof.
  intros fw w. unfold test_device_status. run_m.
  destruct (simulate_rest_call adapter (device_configs fw) device_name "/system/status"
              (tick w)) as [[data|e] w1]; [|apply error_result_outcome].
  destruct (evaluate_status float_repr data) as [test_passed issues].
  destruct (report_issues_run device_name "performance" test_passed issues fw
              (tick (tick w1))) as (ds & w' & Hrun & Hds).
  rewrite Hrun. unfold extended. cbn [test_results defects device_configs].
  eexists _, ds, w', _. split; [reflexivity|]. split; [reflexivity | exact Hds].
Qed.

Lemma interface_outcome device_name :
  outcome_step "interface_test_" "interface" device_name
    (test_interface_status adapter device_name).
Proof.
  intros fw w. unfold test_interface_status. run_m.
  destruct (simulate_rest_call adapter (device_configs fw) device_name "/interfaces"
              (tick w)) as [[data|e] w1]; [|apply error_result_outcome].
  match goal with |- context [evaluate_interfaces ?d ?n] =>
    destruct (evaluate_interfaces d n) as [test_passed issues] end.
  destruct (report_issues_run device_name "interface" test_passed issues fw
              (tick (tick w1))) as (ds & w' & Hrun & Hds).
  rewrite Hrun. unfold extended. cbn [test_results defects device_configs].
  eexists _, ds, w', _. split; [reflexivity|]. split; [reflexivity | exact Hds].
Qed.

Lemma alarm_outcome device_name :
  outcome_step "alarm_test_" "alarm" device_name
    (test_alarm_monitoring adapter device_name).
Proof.
  intros fw w. unfold test_alarm_monitoring. run_m.
  destruct (simulate_rest_call adapter (device_configs fw) device_name "/alarms"
              (tick w)) as [[data|e] w1]; [|apply error_result_outcome].
  eexists _, [], _, []. unfold extended. rewrite app_nil_r.
  split; [reflexivity|]. split; [reflexivity | constructor].
Qed.



Lemma suite_run device_names fw w :
  run_test_suite float_repr adapter device_names fw w
  = for_each (suite_devices device_names fw) (fun device_name =>
      test_device_connectivity adapter device_name ;;
      test_device_status float_repr adapter device_name ;;
      test_interface_status adapter device_name ;;
      test_alarm_monitoring adapter device_name ;;
      mret tt) fw w.
Proof. now destruct device_names. Qed.

End Outcomes.



Lemma for_each_app {A} (l1 l2 : list A) (body : A -> M unit) fw w :
  for_each (l1 ++ l2) body fw w = (for_each l1 body ;; for_each l2 body) fw w.
Proof.
  revert fw w. induction l1 as [|x l1 IH]; intros fw w.
  - reflexivity.
  - cbn [app for_each]. unfold mbind, M_bind.
    destruct (body x fw w) as [[[[]|e] fw1] w1]; [|reflexivity].
    rewrite IH. reflexivity.
Qed.

(** X2. Running the suite over the concatenation of two lists of device names
    is running it over the first list and then over the second, on the
    framework and the world the first run left. *)
Theorem suite_split float_repr adapter (l1 l2 : list string) fw w :
  run_test_suite float_repr adapter (Some (l1 ++ l2)%list) fw w
  = (run_test_suite float_repr adapter (Some l1) ;;
     run_test_suite float_repr adapter (Some l2)) fw w.
Proof.
  unfold run_test_suite.
  erewrite bind_ok by reflexivity. rewrite for_each_app.
  reflexivity.
Qed.







(** ** Invariants of the history *)


Lemma created_well_formed device_name category n issues ds :
  created device_name category n issues ds -> Forall defect_well_formed ds.
Proof.
  induction 1 as [|n issue issues d ds (_ & _ & Hc & Hd & Hs & Ho) _ IH];
    constructor; [|exact IH].
  split; [exact Ho|]. now rewrite Hc, Hd.
Qed.

Lemma reachable_invariant float_repr adapter (I : Framework -> Prop) :
  (forall config, I (init config)) ->
  (forall c, keeps I (perform float_repr adapter c)) ->
  forall fw, reachable float_repr adapter fw -> I fw.
Proof.
  intros Hinit Hkeeps fw. induction 1 as [config | fw c w r fw' w' _ IH Hrun].
  - apply Hinit.
  - destruct (Hkeeps c fw w IH) as (a & fw1 & w1 & Hrun1 & H1).
    rewrite Hrun in Hrun1. now injection Hrun1 as _ -> _.
Qed.

(** Calls that keep an invariant of the framework when the four checks and
    the creation of a defect do. *)
Lemma perform_keeps float_repr adapter (I : Framework -> Prop) :
  (forall check device_name,
      In check (checks float_repr adapter) -> keeps I (check device_name)) ->
  (forall device_name category description,
      keeps I (create_defect device_name category description)) ->
  forall c, keeps I (perform float_repr adapter c).
Proof.
  intros Hchecks Hcreate c.
  destruct c; cbn [perform];
    try (apply keeps_bind; [|intros _; apply keeps_ret]).
  1-4: apply Hchecks; cbn; tauto.
  - apply Hcreate.
  - now apply suite_keeps.
  - intros fw w Hinv. destruct (report_run fw w) as (report & Hrun).
    now exists report, fw, (tick w).
Qed.

Lemma outcome_keeps_well_formed prefix category device_name check :
  outcome_step prefix category device_name check ->
  keeps (fun fw => Forall defect_well_formed (defects fw)) check.
Proof.
  intros Hstep fw w Hinv.
  destruct (Hstep fw w) as (r & ds & w' & issues & Hrun & _ & Hds).
  exists r, (extended fw r ds), w'. split; [exact Hrun|].
  cbn [extended defects]. apply Forall_app_2; [exact Hinv|].
  now apply created_well_formed in Hds.
Qed.

(** X4. In every state an instance can reach, every defect is OPEN and carries
    the severity [determine_severity] gives for the category and the
    description stored in that same defect. *)
Theorem defects_well_formed float_repr adapter fw :
  reachable float_repr adapter fw ->
  Forall defect_well_formed (defects fw).
Proof.
  apply (reachable_invariant float_repr adapter
           (fun fw => Forall defect_well_formed (defects fw))).
  - intros config. constructor.
  - apply perform_keeps.
    + intros check device_name [<-|[<-|[<-|[<-|[]]]]].
      * eapply outcome_keeps_well_formed, connectivity_outcome.
      * eapply outcome_keeps_well_formed, status_outcome.
      * eapply outcome_keeps_well_formed, interface_outcome.
      * eapply outcome_keeps_well_formed, alarm_outcome.
    + intros device_name category description fw0 w Hinv.
      destruct (create_defect_run device_name category description fw0 w)
        as (d & Hrun & Hd).
      do 3 eexists. split; [exact Hrun|].
      cbn [defects]. apply Forall_app_2; [exact Hinv|].
      apply (created_well_formed device_name category (length (defects fw0))
               [description] [d]).
      repeat constructor; apply Hd.
Qed.

Lemma defects_well_formed_witness :
  Forall defect_well_formed (defects after_default_run).
Proof.
  apply (defects_well_formed sample_repr simulator after_default_run).
  exact after_default_run_reachable.
Defined.

Lemma count_status_total (results : list TestResult) :
  count_status PASSED results + count_status FAILED results + count_status ERROR results
  = length results.
Proof.
  unfold count_status.
  induction results as [|r results IH]; [reflexivity|].
  cbn [List.filter]. destruct (tr_status r); cbn [status_eqb length]; lia.
Qed.


(** X5. In a report as it is generated, the passed, failed and error counts
    add up to the total number of outcomes, which is the length of the list
    of outcomes the report carries, and [defects_found] is the length of its
    list of defects. *)
Theorem report_counts_add_up fw w :
  exists report,
    generate_test_report fw w = (Ok report, fw, tick w)
    /\ passed (test_summary report) + failed (test_summary report)
       + errors (test_summary report)
       = total_tests (test_summary report)
    /\ total_tests (test_summary report) = length (rp_test_results report)
    /\ defects_found report = length (defect_details report).
Proof.
  eexists. split; [apply generate_test_report_run|].
  cbn [test_summary passed failed errors total_tests rp_test_results defects_found
       defect_details].
  split; [apply count_status_total|]. now split.
Qed.

(** ** Issue texts and their severity *)

Lemma lower_app (a b : string) : lower (a ++ b) = lower a ++ lower b.
Proof. induction a; simpl; congruence. Qed.

Lemma string_app_assoc (a b c : string) : (a ++ b) ++ c = a ++ b ++ c.
Proof. induction a; simpl; congruence. Qed.

Lemma avoids_app c a b : avoids c a -> avoids c b -> avoids c (a ++ b).
Proof. unfold avoids. rewrite chars_app. apply Forall_app_2. Qed.

Lemma avoids_literal c s :
  forallb (fun c' => negb (Ascii.eqb (lower_ascii c') c)) (chars s) = true ->
  avoids c s.
Proof.
  unfold avoids. intros H. rewrite forallb_forall in H. apply Forall_forall.
  intros c' Hc. apply list_elem_of_In in Hc. specialize (H c' Hc).
  now apply negb_true_iff, Ascii.eqb_neq in H.
Qed.

Lemma avoids_numeric c r :
  forallb (fun c' => negb (Ascii.eqb (lower_ascii c') c)) numeric_chars = true ->
  numeric_text r -> avoids c r.
Proof.
  unfold avoids, numeric_text. intros H Hr. rewrite forallb_forall in H.
  eapply List.Forall_impl; [|exact Hr].
  intros c' Hc. specialize (H c' Hc).
  now apply negb_true_iff, Ascii.eqb_neq in H.
Qed.

Lemma avoids_not_mentioned word text c :
  In c (chars word) -> avoids c text -> contains word (lower text) = false.
Proof. apply not_mentioned. Qed.

Lemma last_interface_major (n : Z) :
  determine_severity "interface" (last_interface_issue n) = MAJOR.
Proof.
  unfold determine_severity, last_interface_issue.
  change (contains "connectivity" (lower "interface")) with false.
  change (contains "interface" (lower "interface")) with true.
  rewrite (avoids_not_mentioned "unreachable" _ "b").
  - cbn [orb andb].
    replace (contains "down" _) with true; [reflexivity|].
    symmetry. apply contains_iff.
    exists (lower "Interface eth" ++ lower (str_int (n - 1)) ++ " is "), "".
    rewrite !lower_app, !string_app_assoc. reflexivity.
  - cbv. tauto.
  - repeat apply avoids_app.
    + now apply avoids_literal.
    + apply avoids_numeric; [reflexivity | apply numeric_text_int].
    + now apply avoids_literal.
Qed.

Lemma count_issue_minor (expected found : Z) :
  determine_severity "interface" (count_issue expected found) = MINOR.
Proof.
  unfold determine_severity, count_issue.
  change (contains "connectivity" (lower "interface")) with false.
  rewrite (avoids_not_mentioned "unreachable" _ "b").
  - rewrite (avoids_not_mentioned "down" _ "w").
    + rewrite andb_false_r. cbn [orb].
      now destruct (contains "high" _ && _).
    + cbv. tauto.
    + repeat apply avoids_app;
        first [ now apply avoids_literal
              | apply avoids_numeric; [reflexivity | apply numeric_text_int] ].
  - cbv. tauto.
  - repeat apply avoids_app;
      first [ now apply avoids_literal
            | apply avoids_numeric; [reflexivity | apply numeric_text_int] ].
Qed.

(** [range]: the integers from zero up to, not including, [n]. *)
Lemma range_nonpos (n : Z) : (n <= 0)%Z -> range n = [].
Proof. intros H. unfold range. now replace (Z.to_nat n) with 0 by lia. Qed.

Lemma range_succ (n : Z) : (0 <= n)%Z -> range (n + 1) = (range n ++ [n])%list.
Proof.
  intros H. unfold range.
  replace (Z.to_nat (n + 1)) with (S (Z.to_nat n)) by lia.
  rewrite seq_S, map_app. cbn [map Nat.add]. now rewrite Z2Nat.id.
Qed.

Lemma range_bound (n i : Z) : In i (range n) -> (0 <= i < n)%Z.
Proof.
  unfold range. rewrite in_map_iff. intros (k & <- & Hk).
  apply in_seq in Hk. lia.
Qed.

Lemma length_range (n : Z) : (0 <= n)%Z -> Z.of_nat (length (range n)) = n.
Proof. intros H. unfold range. rewrite length_map, length_seq. lia. Qed.

(** ** The simulator, check by check *)

Lemma sim_interfaces_registered cfg device_name device :
  get cfg device_name = Some device ->
  (1 <= expected_interfaces device)%Z ->
  exists ups,
    sim_rest_call cfg device_name "/interfaces"
    = RespInterfaces (ups ++ [last_interface (expected_interfaces device)])
    /\ Forall (fun iface => if_status iface = "up") ups
    /\ Z.of_nat (length ups) = (expected_interfaces device - 1)%Z.
Proof.
  intros Hget Hn. unfold sim_rest_call. rewrite Hget.
  change (String.eqb "/interfaces" "/system/status") with false.
  change (String.eqb "/interfaces" "/interfaces") with true.
  cbv iota.
  set (n := expected_interfaces device) in *.
  assert (Hr : range n = (range (n - 1) ++ [(n - 1)%Z])%list).
  { replace n with (n - 1 + 1)%Z at 1 by lia. apply range_succ. lia. }
  rewrite Hr, map_app. eexists. split; [|split].
  - f_equal. f_equal. cbn [map]. now rewrite Z.ltb_irrefl.
  - apply Forall_forall. intros iface Hin.
    apply list_elem_of_In, in_map_iff in Hin as (i & <- & Hi).
    apply range_bound in Hi. cbn [if_status].
    now replace (i <? n - 1)%Z with true by (symmetry; apply Z.ltb_lt; lia).
  - rewrite length_map. apply length_range. lia.
Qed.

Lemma evaluate_last_down ups n :
  Forall (fun iface => if_status iface = "up") ups ->
  Z.of_nat (length ups) = (n - 1)%Z ->
  evaluate_interfaces (RespInterfaces (ups ++ [last_interface n])) n
  = (false, [last_interface_issue n]).
Proof.
  intros Hup Hlen. rewrite evaluate_interfaces_payload.
  assert (E : interface_issues n (ups ++ [last_interface n]) = [last_interface_issue n]).
  { unfold interface_issues. cbn [List.concat].
    rewrite length_app. cbn [length].
    replace (Z.of_nat (length ups + 1) =? n)%Z with true
      by (symmetry; apply Z.eqb_eq; lia).
    rewrite List.filter_app.
    rewrite (proj2 (all_up_iff ups)) by (now apply Forall_forall; apply Forall_forall).
    reflexivity. }
  now rewrite E.
Qed.

Section Simulator.

Variable float_repr : float -> string.

Lemma sim_status_run device_name device fw w :
  get (device_configs fw) device_name = Some device ->
  exists r w',
    test_device_status float_repr simulator device_name fw w
    = (Ok r, extended fw r [], w')
    /\ tr_device r = Some device_name
    /\ tr_status r = PASSED
    /\ tr_detail r = DStatus (nominal_status (expected_interfaces device)) [].
Proof.
  intros Hget.
  destruct (status_answered float_repr simulator device_name fw w
              (nominal_status (expected_interfaces device)) (tick w))
    as (r & ds & w' & Hrun & Hdev & Hst & Hdet & Hds).
  { cbn [simulate_rest_call simulator]. unfold sim_rest_call. now rewrite Hget. }
  unfold nominal_status in Hst, Hdet, Hds.
  rewrite evaluate_status_payload in Hst, Hdet, Hds.
  change (breach_issues float_repr 15.2 45.8 35.2) with (@nil string) in Hdet, Hds.
  cbn in Hst, Hds. apply created_none in Hds. subst ds.
  now exists r, w'.
Qed.

Lemma sim_interface_run device_name device fw w :
  get (device_configs fw) device_name = Some device ->
  (1 <= expected_interfaces device)%Z ->
  exists r d w' interface_data,
    test_interface_status simulator device_name fw w
    = (Ok r, extended fw r [d], w')
    /\ tr_device r = Some device_name
    /\ tr_status r = FAILED
    /\ tr_detail r
       = DInterface interface_data [last_interface_issue (expected_interfaces device)]
    /\ defect_for device_name "interface" (length (defects fw))
         (last_interface_issue (expected_interfaces device)) d.
Proof.
  intros Hget Hn.
  destruct (sim_interfaces_registered _ _ _ Hget Hn) as (ups & Hpay & Hup & Hlen).
  destruct (interface_answered simulator device_name fw w
              (sim_rest_call (device_configs fw) device_name "/interfaces") (tick w)
              eq_refl)
    as (r & ds & w' & Hrun & Hdev & Hst & Hdet & Hds).
  unfold expected_of in Hst, Hdet, Hds. rewrite Hget, Hpay in Hst, Hdet, Hds.
  rewrite (evaluate_last_down ups _ Hup Hlen) in Hst, Hdet, Hds.
  cbn [fst snd] in Hst, Hdet, Hds.
  apply created_one in Hds as (d & -> & Hd).
  now exists r, d, w', (RespInterfaces (ups ++ [last_interface (expected_interfaces device)])).
Qed.

Lemma sim_alarm_run device_name device fw w :
  get (device_configs fw) device_name = Some device ->
  exists r w',
    test_alarm_monitoring simulator device_name fw w = (Ok r, extended fw r [], w')
    /\ tr_device r = Some device_name
    /\ tr_status r = PASSED
    /\ tr_detail r
       = if (3 <? expected_interfaces device)%Z
         then DAlarm [eth3_alarm] 1 else DAlarm [] 0.
Proof.
  intros Hget.
  destruct (alarm_answered simulator device_name fw w
              (sim_rest_call (device_configs fw) device_name "/alarms") (tick w) eq_refl)
    as (r & Hrun & Hdev & Hst & Hdet).
  unfold sim_rest_call in Hdet. rewrite Hget in Hdet.
  change (String.eqb "/alarms" "/system/status") with false in Hdet.
  change (String.eqb "/alarms" "/interfaces") with false in Hdet.
  change (String.eqb "/alarms" "/alarms") with true in Hdet.
  cbv iota in Hdet. cbn [get_active_alarms] in Hdet.
  exists r. eexists. split; [exact Hrun|]. split; [exact Hdev|]. split; [exact Hst|].
  rewrite Hdet. now destruct (3 <? expected_interfaces device)%Z.
Qed.

Lemma sim_connectivity_run device_name device fw w :
  get (device_configs fw) device_name = Some device ->
  let response_time := (1.0 + (50.0 - 1.0) * entropy w (S (ticks w)))%float in
  let port_open := (0.05 <? entropy w (S (S (ticks w))))%float in
  exists r ds w',
    test_device_connectivity simulator device_name fw w = (Ok r, extended fw r ds, w')
    /\ tr_device r = Some device_name
    /\ if (0 <? response_time)%float && port_open
       then tr_status r = PASSED
            /\ tr_detail r = DConnectivity response_time port_open None
            /\ ds = []
       else tr_status r = FAILED
            /\ tr_detail r
               = DConnectivity response_time port_open
                   (Some "Connectivity failed - device unreachable")
            /\ created device_name "connectivity" (length (defects fw))
                 ["Connectivity failed - device unreachable"] ds.
Proof.
  intros Hget response_time port_open.
  apply (connectivity_answered simulator device_name device fw w response_time port_open
           (tick (tick w)) (tick (tick (tick w))) Hget); reflexivity.
Qed.

End Simulator.

(** X6. With the simulator, the status check of a registered device always
    passes: its payload (CPU 15.2, memory 45.8, temperature 35.2) is below
    every threshold, so the outcome is PASSED with no issue and no defect. *)
Theorem simulator_status_passes float_repr device_name device fw w :
  get (device_configs fw) device_name = Some device ->
  exists r w',
    test_device_status float_repr simulator device_name fw w
    = (Ok r, extended fw r [], w')
    /\ tr_status r = PASSED
    /\ issues_of r = []
    /\ tr_detail r = DStatus (nominal_status (expected_interfaces device)) [].
Proof.
  intros Hget.
  destruct (sim_status_run float_repr device_name device fw w Hget)
    as (r & w' & Hrun & _ & Hst & Hdet).
  exists r, w'. repeat split; try assumption.
  unfold issues_of. now rewrite Hdet.
Qed.

Lemma simulator_status_passes_witness :
  exists r w',
    test_device_status sample_repr simulator "optical_device_1" (init None)
      (steady_world 0.5)
    = (Ok r, extended (init None) r [], w')
    /\ tr_status r = PASSED
    /\ issues_of r = []
    /\ tr_detail r = DStatus (nominal_status 4) [].
Proof.
  apply (simulator_status_passes sample_repr "optical_device_1"
           (mkDevice "192.168.1.100" "optical_transponder" 8080 4 ["REST"; "SNMP"; "CLI"])
           (init None) (steady_world 0.5)).
  reflexivity.
Defined.

Lemma evaluate_no_interfaces (n : Z) :
  evaluate_interfaces (RespInterfaces []) n
  = if (n =? 0)%Z then (true, []) else (false, [count_issue n 0]).
Proof.
  rewrite evaluate_interfaces_payload. unfold interface_issues.
  cbn [length Z.of_nat List.filter map List.concat app].
  change (Z.of_nat 0) with 0%Z. rewrite (Z.eqb_sym 0 n).
  destruct (n =? 0)%Z; reflexivity.
Qed.

(** X7. With the simulator, the interface check of a registered device
    expecting [n] interfaces fails whenever [n] is at least one, with the
    single issue that the last interface, eth(n-1), is down and one MAJOR
    defect; it passes without issue when [n] is zero; and for a negative [n]
    it fails with the count mismatch against an empty list and one MINOR
    defect. *)
Theorem simulator_interface_verdict device_name device fw w :
  get (device_configs fw) device_name = Some device ->
  let n := expected_interfaces device in
  exists r ds w',
    test_interface_status simulator device_name fw w = (Ok r, extended fw r ds, w')
    /\ issues_of r
       = (if (1 <=? n)%Z then [last_interface_issue n]
          else if (n =? 0)%Z then [] else [count_issue n 0])
    /\ tr_status r = (if (n =? 0)%Z then PASSED else FAILED)
    /\ Forall2 (fun issue d =>
                  df_device d = device_name
                  /\ df_category d = "interface"
                  /\ df_description d = issue
                  /\ df_severity d = if (1 <=? n)%Z then MAJOR else MINOR)
               (issues_of r) ds.
Proof.
  intros Hget n. subst n.
  destruct (Z.leb_spec 1 (expected_interfaces device)) as [Hn|Hn].
  - destruct (sim_interface_run device_name device fw w Hget Hn)
      as (r & d & w' & data & Hrun & _ & Hst & Hdet & Hd).
    exists r, [d], w'. split; [exact Hrun|].
    assert (His : issues_of r = [last_interface_issue (expected_interfaces device)])
      by (unfold issues_of; now rewrite Hdet).
    rewrite His. split; [reflexivity|]. split.
    + rewrite Hst. now replace (expected_interfaces device =? 0)%Z with false
        by (symmetry; apply Z.eqb_neq; lia).
    + destruct Hd as (_ & H1 & H2 & H3 & H4 & _).
      repeat constructor; try assumption.
      rewrite H4. apply last_interface_major.
  - destruct (interface_answered simulator device_name fw w
                (sim_rest_call (device_configs fw) device_name "/interfaces") (tick w)
                eq_refl)
      as (r & ds & w' & Hrun & _ & Hst & Hdet & Hds).
    unfold expected_of, sim_rest_call in Hst, Hdet, Hds.
    rewrite Hget in Hst, Hdet, Hds.
    change (String.eqb "/interfaces" "/system/status") with false in Hst, Hdet, Hds.
    change (String.eqb "/interfaces" "/interfaces") with true in Hst, Hdet, Hds.
    cbv iota in Hst, Hdet, Hds.
    rewrite range_nonpos in Hst, Hdet, Hds by lia.
    cbn [map] in Hst, Hdet, Hds.
    rewrite evaluate_no_interfaces in Hst, Hdet, Hds.
    exists r, ds, w'. split; [exact Hrun|].
    assert (His : issues_of r
                  = snd (if (expected_interfaces device =? 0)%Z
                         then (true, []) else (false, [count_issue (expected_interfaces device) 0])))
      by (unfold issues_of; now rewrite Hdet).
    rewrite His.
    destruct (expected_interfaces device =? 0)%Z; cbn [fst snd] in *.
    + apply created_none in Hds. subst ds. repeat split; auto.
    + apply created_one in Hds as (d & -> & _ & H1 & H2 & H3 & H4 & _).
      repeat split; auto. repeat constructor; try assumption.
      rewrite H4. apply count_issue_minor.
Qed.

Lemma simulator_interface_verdict_witness :
  exists r ds w',
    test_interface_status simulator "microwave_device_1" (init None) (steady_world 0.5)
    = (Ok r, extended (init None) r ds, w')
    /\ issues_of r
       = (if (1 <=? 2)%Z then [last_interface_issue 2]
          else if (2 =? 0)%Z then [] else [count_issue 2 0])
    /\ tr_status r = (if (2 =? 0)%Z then PASSED else FAILED)
    /\ Forall2 (fun issue d =>
                  df_device d = "microwave_device_1"
                  /\ df_category d = "interface"
                  /\ df_description d = issue
                  /\ df_severity d = if (1 <=? 2)%Z then MAJOR else MINOR)
               (issues_of r) ds.
Proof.
  apply (simulator_interface_verdict "microwave_device_1"
           (mkDevice "192.168.1.101" "microwave_radio" 443 2 ["REST"; "NETCONF"])
           (init None) (steady_world 0.5)).
  reflexivity.
Defined.

Lemma evaluate_interfaces_any data expected :
  has_error data = false ->
  evaluate_interfaces data expected
  = evaluate_interfaces (RespInterfaces (get_interfaces data)) expected.
Proof. now destruct data. Qed.

(** X8. Whatever the adapter, when it answers a payload without an error
    whose interfaces (none, when the payload has no list of them) are all up
    but differ in number from the expected count (zero for an unknown
    device), the interface check fails with the count mismatch as its only
    issue and creates exactly one defect, of severity MINOR. *)
Theorem count_mismatch_minor adapter device_name fw w data w1 :
  simulate_rest_call adapter (device_configs fw) device_name "/interfaces" (tick w)
  = (Ok data, w1) ->
  has_error data = false ->
  Forall (fun iface => if_status iface = "up") (get_interfaces data) ->
  Z.of_nat (length (get_interfaces data)) <> expected_of (device_configs fw) device_name ->
  exists r d w',
    test_interface_status adapter device_name fw w = (Ok r, extended fw r [d], w')
    /\ tr_status r = FAILED
    /\ issues_of r
       = [count_issue (expected_of (device_configs fw) device_name)
            (Z.of_nat (length (get_interfaces data)))]
    /\ df_category d = "interface"
    /\ df_description d
       = count_issue (expected_of (device_configs fw) device_name)
           (Z.of_nat (length (get_interfaces data)))
    /\ df_severity d = MINOR.
Proof.
  intros Hcall Herr Hup Hlen.
  destruct (interface_answered adapter device_name fw w _ w1 Hcall)
    as (r & ds & w' & Hrun & _ & Hst & Hdet & Hds).
  rewrite (evaluate_interfaces_any data _ Herr) in Hst, Hdet, Hds.
  rewrite evaluate_interfaces_payload in Hst, Hdet, Hds.
  assert (E : interface_issues (expected_of (device_configs fw) device_name)
                (get_interfaces data)
              = [count_issue (expected_of (device_configs fw) device_name)
                   (Z.of_nat (length (get_interfaces data)))]).
  { unfold interface_issues. cbn [List.concat].
    rewrite (proj2 (all_up_iff (get_interfaces data)))
      by (now apply Forall_forall; apply Forall_forall).
    now replace (Z.of_nat (length (get_interfaces data)) =? _)%Z with false
      by (symmetry; now apply Z.eqb_neq). }
  rewrite E in Hst, Hdet, Hds. cbn [fst snd] in Hst, Hdet, Hds.
  apply created_one in Hds as (d & -> & _ & H1 & H2 & H3 & H4 & _).
  exists r, d, w'. repeat split; try assumption.
  - unfold issues_of. now rewrite Hdet.
  - rewrite H4. apply count_issue_minor.
Qed.

Lemma count_mismatch_minor_witness :
  exists r d w',
    test_interface_status (answering single_link) "microwave_device_1" (init None)
      (steady_world 0.5)
    = (Ok r, extended (init None) r [d], w')
    /\ tr_status r = FAILED
    /\ issues_of r = [count_issue 2 1]
    /\ df_category d = "interface"
    /\ df_description d = count_issue 2 1
    /\ df_severity d = MINOR.
Proof.
  apply (count_mismatch_minor (answering single_link) "microwave_device_1" (init None)
           (steady_world 0.5) single_link (tick (steady_world 0.5))).
  - reflexivity.
  - reflexivity.
  - repeat constructor.
  - discriminate.
Defined.


(** ** Rounding of binary64 values that do not underflow *)

Section BinaryRound.

Local Open Scope Z_scope.

Lemma digits2_pos_bounds (m : positive) :
  2 ^ (Zpos (digits2_pos m) - 1) <= Zpos m < 2 ^ Zpos (digits2_pos m).
Proof.
  induction m as [m IH|m IH|]; cbn [digits2_pos]; [| |cbn; lia].
  all: rewrite Pos2Z.inj_succ;
    replace (Z.succ (Zpos (digits2_pos m)) - 1) with (Z.succ (Zpos (digits2_pos m) - 1))
      by lia;
    rewrite !Z.pow_succ_r by lia; lia.
Qed.

Lemma digits2_pos_mono (m m' : positive) :
  (m <= m')%positive -> Zpos (digits2_pos m) <= Zpos (digits2_pos m').
Proof.
  intros H.
  pose proof (digits2_pos_bounds m) as [Hm _].
  pose proof (digits2_pos_bounds m') as [_ Hm'].
  assert (Hlt : 2 ^ (Zpos (digits2_pos m) - 1) < 2 ^ Zpos (digits2_pos m')) by lia.
  apply Z.pow_lt_mono_r_iff in Hlt; lia.
Qed.

Lemma shr_1_m (mrs : shr_record) :
  0 <= shr_m mrs -> shr_m (shr_1 mrs) = shr_m mrs / 2.
Proof.
  destruct mrs as [[|[p|p|]|p] r s]; cbn [shr_1 shr_m]; intros H.
  - reflexivity.
  - apply Z.div_unique with (r := 1); lia.
  - apply Z.div_unique with (r := 0); lia.
  - reflexivity.
  - lia.
Qed.

Lemma iter_pos_shr_m (n : positive) : forall mrs,
  0 <= shr_m mrs ->
  shr_m (SpecFloat.iter_pos shr_1 n mrs) = shr_m mrs / 2 ^ Zpos n.
Proof.
  induction n as [n IH|n IH|]; intros mrs H; cbn [SpecFloat.iter_pos].
  - assert (H1 : 0 <= shr_m (shr_1 mrs))
      by (rewrite shr_1_m by exact H; apply Z.div_pos; lia).
    assert (H2 : 0 <= shr_m (SpecFloat.iter_pos shr_1 n (shr_1 mrs)))
      by (rewrite IH by exact H1; apply Z.div_pos; [exact H1 | apply Z.pow_pos_nonneg; lia]).
    rewrite IH by exact H2. rewrite IH by exact H1. rewrite shr_1_m by exact H.
    rewrite !Z.div_div by (try apply Z.pow_pos_nonneg; lia).
    f_equal. replace (Zpos n~1) with (1 + Zpos n + Zpos n) by lia.
    rewrite !Z.pow_add_r by lia. lia.
  - assert (H1 : 0 <= shr_m (SpecFloat.iter_pos shr_1 n mrs))
      by (rewrite IH by exact H; apply Z.div_pos; [exact H | apply Z.pow_pos_nonneg; lia]).
    rewrite IH by exact H1. rewrite IH by exact H.
    rewrite !Z.div_div by (try apply Z.pow_pos_nonneg; lia).
    f_equal. replace (Zpos n~0) with (Zpos n + Zpos n) by lia.
    rewrite !Z.pow_add_r by lia. lia.
  - now apply shr_1_m.
Qed.

Lemma fexp_ge_emin (k : Z) : emin <= fexp prec emax k.
Proof. unfold fexp. lia. Qed.

(** The first step of rounding a mantissa whose value is above the least
    positive number: the mantissa stays positive, and so does its value. *)
Lemma shr_fexp_pos (m : positive) (e : Z) (l : location) :
  emin + 1 <= Zpos (digits2_pos m) + e ->
  exists m',
    shr_m (fst (shr_fexp prec emax (Zpos m) e l)) = Zpos m'
    /\ emin + 1 <= Zpos (digits2_pos m') + snd (shr_fexp prec emax (Zpos m) e l).
Proof.
  intros H. unfold shr_fexp, shr. cbn [Zdigits2].
  set (k := Zpos (digits2_pos m) + e) in *.
  destruct (fexp prec emax k - e) as [|n|n] eqn:En.
  - exists m. cbn [fst snd]. split; [now destruct l as [|[]] | exact H].
  - cbn [fst snd].
    assert (Hm : shr_m (shr_record_of_loc (Zpos m) l) = Zpos m) by now destruct l as [|[]].
    rewrite iter_pos_shr_m by (rewrite Hm; lia). rewrite Hm.
    assert (Hn : Zpos n <= Zpos (digits2_pos m) - 1).
    { rewrite <- En. unfold fexp, emin in *. change prec with 53 in *.
      change emax with 1024 in *. lia. }
    assert (Hpow : 2 ^ Zpos n <= Zpos m).
    { pose proof (digits2_pos_bounds m) as [Hlow _].
      pose proof (Z.pow_le_mono_r 2 (Zpos n) (Zpos (digits2_pos m) - 1)) as Hmono.
      lia. }
    assert (Hq : 0 < Zpos m / 2 ^ Zpos n)
      by (apply Z.div_str_pos; split; [apply Z.pow_pos_nonneg; lia | exact Hpow]).
    destruct (Zpos m / 2 ^ Zpos n) as [|q|q]; try lia.
    exists q. split; [reflexivity|].
    pose proof (fexp_ge_emin k). lia.
  - exists m. cbn [fst snd]. split; [now destruct l as [|[]] | exact H].
Qed.

Lemma round_nearest_even_pos (m : positive) (l : location) :
  exists m', round_nearest_even (Zpos m) l = Zpos m' /\ (m <= m')%positive.
Proof.
  destruct l as [|[]]; cbn [round_nearest_even].
  - exists m. split; [reflexivity | lia].
  - destruct (Z.even (Zpos m)); [exists m | exists (m + 1)%positive]; split;
      try reflexivity; lia.
  - exists m. split; [reflexivity | lia].
  - exists (m + 1)%positive. split; [reflexivity | lia].
Qed.

(** A mantissa whose value is above the least positive number is rounded to
    a finite number or an infinity of the same sign. *)
Lemma binary_round_aux_pos (sx : bool) (m : positive) (e : Z) (l : location) :
  emin + 1 <= Zpos (digits2_pos m) + e ->
  (exists m' e', binary_round_aux prec emax sx (Zpos m) e l = S754_finite sx m' e')
  \/ binary_round_aux prec emax sx (Zpos m) e l = S754_infinity sx.
Proof.
  intros H. unfold binary_round_aux.
  destruct (shr_fexp_pos m e l H) as (m1 & Hm1 & He1).
  destruct (shr_fexp prec emax (Zpos m) e l) as [mrs1 e1]. cbn [fst snd] in Hm1, He1.
  rewrite Hm1.
  destruct (round_nearest_even_pos m1 (loc_of_shr_record mrs1)) as (m2 & -> & Hle).
  assert (He2 : emin + 1 <= Zpos (digits2_pos m2) + e1)
    by (pose proof (digits2_pos_mono m1 m2 Hle); lia).
  destruct (shr_fexp_pos m2 e1 loc_Exact He2) as (m3 & Hm3 & _).
  destruct (shr_fexp prec emax (Zpos m2) e1 loc_Exact) as [mrs2 e2]. cbn [fst] in Hm3.
  rewrite Hm3.
  destruct (e2 <=? emax - prec); [left; now exists m3, e2 | now right].
Qed.

Lemma binary_round_pos (sx : bool) (m : positive) (e : Z) :
  emin + 1 <= Zpos (digits2_pos m) + e ->
  (exists m' e', binary_round prec emax sx m e = S754_finite sx m' e')
  \/ binary_round prec emax sx m e = S754_infinity sx.
Proof.
  intros H. unfold binary_round, shl_align.
  destruct (fexp prec emax (Zpos (digits2_pos m) + e) - e) as [|d|d] eqn:Ed;
    try (now apply binary_round_aux_pos).
  apply binary_round_aux_pos.
  pose proof (fexp_ge_emin (Zpos (digits2_pos m) + e)).
  assert (0 < Zpos (digits2_pos (Pos.iter xO m d))) by lia. lia.
Qed.

End BinaryRound.

Lemma valid_exponent s m e :
  valid_binary (S754_finite s m e) = true -> (emin <= e)%Z.
Proof.
  cbn [valid_binary]. unfold bounded, canonical_mantissa.
  intros H. apply andb_true_iff in H as [H _]. apply Z.eqb_eq in H.
  rewrite <- H. apply fexp_ge_emin.
Qed.

Lemma nonneg_float_spec (x : float) :
  (0 <=? x)%float = true -> nonneg_float (Prim2SF x).
Proof.
  rewrite FloatAxioms.leb_spec. change (Prim2SF 0) with (S754_zero false).
  unfold SFleb, nonneg_float, positive_float.
  destruct (Prim2SF x) as [s|[|]| |[|] m e]; cbn; try discriminate; eauto.
Qed.

Lemma positive_float_spec (x : float) :
  positive_float (Prim2SF x) -> (0 <? x)%float = true.
Proof.
  rewrite FloatAxioms.ltb_spec. change (Prim2SF 0) with (S754_zero false).
  intros [(m & e & ->) | ->]; reflexivity.
Qed.

(** The product of a number that is at least one and a non-negative number
    is non-negative. *)
Lemma mul_nonneg (c x : float) mc ec :
  Prim2SF c = S754_finite false mc ec ->
  (1 <= Zpos (digits2_pos mc) + ec)%Z ->
  nonneg_float (Prim2SF x) ->
  nonneg_float (Prim2SF (c * x)).
Proof.
  intros Hc Hone Hx. rewrite FloatAxioms.mul_spec, Hc.
  pose proof (FloatAxioms.Prim2SF_valid x) as Hv.
  destruct Hx as [(s & Hx) | [(m & e & Hx) | Hx]]; rewrite Hx in *.
  - left. now exists (xorb false s).
  - right. apply valid_exponent in Hv.
    cbn [SF64mul SFmul xorb].
    apply binary_round_aux_pos.
    assert (Hmono : (Zpos (digits2_pos mc) <= Zpos (digits2_pos (mc * m)))%Z)
      by (apply digits2_pos_mono; nia).
    lia.
  - right. now right.
Qed.

(** The sum of one and a non-negative number is positive. *)
Lemma one_plus_nonneg (x : float) :
  nonneg_float (Prim2SF x) -> positive_float (Prim2SF (1 + x)).
Proof.
  intros Hx. rewrite FloatAxioms.add_spec.
  pose proof (FloatAxioms.Prim2SF_valid x) as Hv.
  change (Prim2SF 1) with (S754_finite false 4503599627370496 (-52)).
  destruct Hx as [(s & Hx) | [(m & e & Hx) | Hx]]; rewrite Hx in *.
  - left. now eexists _, _.
  - apply valid_exponent in Hv.
    cbn [SF64add SFadd cond_Zopp Z.add binary_normalize].
    apply binary_round_pos.
    assert (0 < Zpos (digits2_pos
                        (fst (shl_align 4503599627370496 (-52) (Z.min (-52) e))
                         + fst (shl_align m e (Z.min (-52) e)))))%Z by lia.
    unfold emin in *. change prec with 53%Z in *. change emax with 1024%Z in *. lia.
  - now right.
Qed.

(** The response time of the simulated ping is positive whenever the random
    draw is not negative. *)
Lemma ping_positive (draw : float) :
  (0 <=? draw)%float = true ->
  (0 <? 1.0 + (50.0 - 1.0) * draw)%float = true.
Proof.
  intros H. apply positive_float_spec, one_plus_nonneg.
  apply (mul_nonneg _ _ 6896136929411072 (-47)%Z); [reflexivity | cbn; lia |].
  now apply nonneg_float_spec.
Qed.

(** The float of a positive length. *)
Lemma float_of_nat_positive (n : nat) :
  0 < n -> (Z.of_nat n < Uint63Axioms.wB)%Z ->
  positive_float (Prim2SF (float_of_nat n)).
Proof.
  intros Hpos Hlt. unfold float_of_nat.
  rewrite FloatAxioms.of_uint63_spec, Uint63.of_Z_spec, Z.mod_small by lia.
  destruct (Z.of_nat n) as [|p|p] eqn:E; try lia.
  cbn [binary_normalize]. apply binary_round_pos.
  assert (0 < Zpos (digits2_pos p))%Z by lia.
  unfold emin. change prec with 53%Z. change emax with 1024%Z. lia.
Qed.

(** No outcome passed out of a positive number: the rate is zero. *)
Lemma zero_rate (total : nat) :
  0 < total -> (Z.of_nat total < Uint63Axioms.wB)%Z ->
  format_1f (float_of_nat 0 / float_of_nat total * 100)%float = "0.0".
Proof.
  intros Hpos Hlt. unfold format_1f.
  rewrite FloatAxioms.mul_spec, FloatAxioms.div_spec.
  change (Prim2SF (float_of_nat 0)) with (S754_zero false).
  change (Prim2SF 100) with (S754_finite false 7036874417766400 (-46)).
  now destruct (float_of_nat_positive total Hpos Hlt) as [(m & e & ->) | ->].
Qed.

Section Finite.

Local Open Scope Z_scope.

Lemma digits2_pos_below (m : positive) (k : Z) :
  Zpos m < 2 ^ k -> Zpos (digits2_pos m) <= k.
Proof.
  intros H. pose proof (digits2_pos_bounds m) as [Hlow _].
  destruct (Z.le_gt_cases 0 k) as [Hk|Hk].
  - assert (Hlt : 2 ^ (Zpos (digits2_pos m) - 1) < 2 ^ k) by lia.
    apply Z.pow_lt_mono_r_iff in Hlt; lia.
  - rewrite Z.pow_neg_r in H by lia. lia.
Qed.

Lemma iter_xO_value (m d : positive) :
  Zpos (Pos.iter xO m d) = Zpos m * 2 ^ Zpos d.
Proof.
  induction d as [|d IH] using Pos.peano_ind.
  - cbn. lia.
  - rewrite Pos.iter_succ, Pos2Z.inj_xO, IH, Pos2Z.inj_succ, Z.pow_succ_r by lia. lia.
Qed.

(** The first step of rounding keeps the magnitude and bounds the exponent. *)
Lemma shr_fexp_bound (m m' : positive) (e K E : Z) (l : location) :
  shr_m (fst (shr_fexp prec emax (Zpos m) e l)) = Zpos m' ->
  Zpos (digits2_pos m) + e <= K ->
  e <= E ->
  Zpos (digits2_pos m') + snd (shr_fexp prec emax (Zpos m) e l) <= K
  /\ snd (shr_fexp prec emax (Zpos m) e l) <= Z.max E (Z.max (K - prec) emin).
Proof.
  unfold shr_fexp, shr. cbn [Zdigits2].
  set (k := Zpos (digits2_pos m) + e) in *.
  intros Hm HK HE.
  assert (Hf : fexp prec emax k <= Z.max (K - prec) emin) by (unfold fexp; lia).
  assert (Hloc : shr_m (shr_record_of_loc (Zpos m) l) = Zpos m) by now destruct l as [|[]].
  destruct (fexp prec emax k - e) as [|n|n] eqn:En; cbn [fst snd] in *.
  - rewrite Hloc in Hm. injection Hm as <-. lia.
  - rewrite iter_pos_shr_m, Hloc in Hm by (rewrite Hloc; lia).
    split; [|lia].
    assert (Hlt : Zpos m' < 2 ^ (Zpos (digits2_pos m) - Zpos n)).
    { rewrite <- Hm.
      pose proof (digits2_pos_bounds m) as [_ Hup].
      assert (Hn : Zpos n <= Zpos (digits2_pos m)).
      { destruct (Z.le_gt_cases (Zpos n) (Zpos (digits2_pos m))) as [|Hgt]; [assumption|].
        exfalso.
        assert (Zpos m < 2 ^ Zpos n).
        { pose proof (Z.pow_le_mono_r 2 (Zpos (digits2_pos m)) (Zpos n)). lia. }
        rewrite Z.div_small in Hm by lia. discriminate. }
      apply Z.div_lt_upper_bound; [apply Z.pow_pos_nonneg; lia|].
      rewrite <- Z.pow_add_r by lia.
      now replace (Zpos n + (Zpos (digits2_pos m) - Zpos n)) with (Zpos (digits2_pos m))
        by lia. }
    apply digits2_pos_below in Hlt. lia.
  - rewrite Hloc in Hm. injection Hm as <-. lia.
Qed.

Lemma digits2_pos_succ (m : positive) :
  Zpos (digits2_pos (m + 1)) <= Zpos (digits2_pos m) + 1.
Proof.
  apply digits2_pos_below.
  pose proof (digits2_pos_bounds m) as [_ Hup].
  rewrite Z.pow_add_r by lia. lia.
Qed.

(** A mantissa of moderate magnitude is rounded to a finite number. *)
Lemma binary_round_aux_finite (sx : bool) (m : positive) (e K : Z) :
  emin + 1 <= Zpos (digits2_pos m) + e ->
  Zpos (digits2_pos m) + e <= K ->
  e <= K ->
  K + 1 <= emax - prec ->
  exists m' e', binary_round_aux prec emax sx (Zpos m) e loc_Exact = S754_finite sx m' e'.
Proof.
  intros Hlow HK He Hmax. unfold binary_round_aux.
  destruct (shr_fexp_pos m e loc_Exact Hlow) as (m1 & Hm1 & He1).
  pose proof (shr_fexp_bound m m1 e K K loc_Exact Hm1 HK He) as [HK1 HE1].
  destruct (shr_fexp prec emax (Zpos m) e loc_Exact) as [mrs1 e1].
  cbn [fst snd] in Hm1, He1, HK1, HE1. rewrite Hm1.
  destruct (round_nearest_even_pos m1 (loc_of_shr_record mrs1)) as (m2 & Hr & Hle).
  assert (Hm2 : (m2 <= m1 + 1)%positive).
  { destruct (loc_of_shr_record mrs1) as [|[]]; cbn [round_nearest_even] in Hr;
      try destruct (Z.even (Zpos m1)); injection Hr as <-; lia. }
  rewrite Hr.
  assert (He2 : emin + 1 <= Zpos (digits2_pos m2) + e1)
    by (pose proof (digits2_pos_mono m1 m2 Hle); lia).
  assert (HK2 : Zpos (digits2_pos m2) + e1 <= K + 1).
  { pose proof (digits2_pos_mono m2 (m1 + 1) Hm2).
    pose proof (digits2_pos_succ m1). lia. }
  destruct (shr_fexp_pos m2 e1 loc_Exact He2) as (m3 & Hm3 & _).
  assert (HE1' : e1 <= K + 1).
  { unfold emin in *. change prec with 53 in *. change emax with 1024 in *. lia. }
  pose proof (shr_fexp_bound m2 m3 e1 (K + 1) (K + 1) loc_Exact Hm3 HK2 HE1') as [_ HE2].
  destruct (shr_fexp prec emax (Zpos m2) e1 loc_Exact) as [mrs2 e2].
  cbn [fst snd] in Hm3, HE2. rewrite Hm3.
  replace (e2 <=? emax - prec) with true; [now exists m3, e2|].
  symmetry. apply Z.leb_le.
  unfold emin in *. change prec with 53 in *. change emax with 1024 in *. lia.
Qed.

(** The float of a length is a positive number. *)
Lemma float_of_nat_finite (n : nat) :
  (0 < n)%nat -> Z.of_nat n < Uint63Axioms.wB ->
  exists m e, Prim2SF (float_of_nat n) = S754_finite false m e.
Proof.
  intros Hpos Hlt. unfold float_of_nat.
  rewrite FloatAxioms.of_uint63_spec, Uint63.of_Z_spec, Z.mod_small by lia.
  destruct (Z.of_nat n) as [|p|p] eqn:E; try lia.
  cbn [binary_normalize]. unfold binary_round, shl_align.
  assert (Hd : Zpos (digits2_pos p) <= 63).
  { apply digits2_pos_below. change Uint63Axioms.wB with (2 ^ 63) in Hlt. lia. }
  assert (Hd0 : 0 < Zpos (digits2_pos p)) by lia.
  destruct (fexp prec emax (Zpos (digits2_pos p) + 0) - 0) as [|d|d] eqn:Ed.
  1,2: apply (binary_round_aux_finite false p 0 63);
    unfold emin; change prec with 53; change emax with 1024; lia.
  assert (Hf : fexp prec emax (Zpos (digits2_pos p) + 0) = Zpos (digits2_pos p) - 53).
  { unfold fexp, emin. change prec with 53. change emax with 1024. lia. }
  rewrite Hf in *.
  apply (binary_round_aux_finite false _ _ 63).
  - assert (0 < Zpos (digits2_pos (Pos.iter xO p d))) by lia.
    unfold emin. change prec with 53. change emax with 1024. lia.
  - assert (Hlt' : Zpos (Pos.iter xO p d) < 2 ^ (Zpos (digits2_pos p) + Zpos d)).
    { rewrite iter_xO_value, Z.pow_add_r by lia.
      pose proof (digits2_pos_bounds p) as [_ Hup].
      apply Z.mul_lt_mono_pos_r; [apply Z.pow_pos_nonneg; lia | exact Hup]. }
    apply digits2_pos_below in Hlt'. lia.
  - lia.
  - change prec with 53. change emax with 1024. lia.
Qed.

(** A positive number divided by itself is one. *)
Lemma div_self (x : float) m e :
  Prim2SF x = S754_finite false m e -> (x / x)%float = 1%float.
Proof.
  intros Hx.
  rewrite <- (FloatAxioms.SF2Prim_Prim2SF (x / x)), <- (FloatAxioms.SF2Prim_Prim2SF 1).
  f_equal. rewrite FloatAxioms.div_spec, Hx.
  cbn [SF64div SFdiv xorb]. unfold SFdiv_core_binary. cbn [Zdigits2].
  rewrite !Z.sub_diag.
  change (Z.min (fexp prec emax 0) 0) with (-53).
  change (0 - -53) with 53.
  cbv iota.
  assert (Hdiv : Z.div_eucl (Z.shiftl (Zpos m) 53) (Zpos m) = (2 ^ 53, 0)).
  { rewrite Z.shiftl_mul_pow2 by lia.
    pose proof (Z.div_eucl_eq (Zpos m * 2 ^ 53) (Zpos m) ltac:(lia)) as Heq.
    pose proof (Z.mod_pos_bound (Zpos m * 2 ^ 53) (Zpos m) ltac:(lia)) as Hb.
    unfold Z.modulo in Hb.
    destruct (Z.div_eucl (Zpos m * 2 ^ 53) (Zpos m)) as [q r].
    assert (q = 2 ^ 53) by nia. assert (r = 0) by nia. now subst. }
  rewrite Hdiv.
  assert (Hloc : new_location (Zpos m) 0 = loc_Exact).
  { unfold new_location, new_location_even, new_location_odd.
    now destruct (Z.even (Zpos m)). }
  rewrite Hloc. reflexivity.
Qed.

End Finite.

(** Every outcome passed: the rate is one hundred. *)
Lemma full_rate (total : nat) :
  0 < total -> (Z.of_nat total < Uint63Axioms.wB)%Z ->
  format_1f (float_of_nat total / float_of_nat total * 100)%float = "100.0".
Proof.
  intros Hpos Hlt.
  destruct (float_of_nat_finite total Hpos Hlt) as (m & e & Hx).
  now rewrite (div_self _ m e Hx).
Qed.

(** ** The simulator over a run *)

Section SimulatorSound.

Variable float_repr : float -> string.







End SimulatorSound.



(** X11. With the simulator, and a first random draw that is not negative (a
    draw of [random.random()] lies in [0, 1)), the simulated response time
    1.0 + 49.0 * draw is positive, so the connectivity check of a registered
    device is decided by the second draw alone: PASSED without a defect when
    it is above 0.05, FAILED with one CRITICAL connectivity defect otherwise,
    in particular when it is exactly 0.05. *)
Theorem simulator_connectivity_verdict device_name device fw w :
  get (device_configs fw) device_name = Some device ->
  (0 <=? entropy w (S (ticks w)))%float = true ->
  let response_time := (1.0 + (50.0 - 1.0) * entropy w (S (ticks w)))%float in
  let port_draw := entropy w (S (S (ticks w))) in
  exists r ds w',
    test_device_connectivity simulator device_name fw w = (Ok r, extended fw r ds, w')
    /\ tr_status r = (if (0.05 <? port_draw)%float then PASSED else FAILED)
    /\ tr_detail r
       = DConnectivity response_time (0.05 <? port_draw)%float
           (if (0.05 <? port_draw)%float
            then None else Some "Connectivity failed - device unreachable")
    /\ (if (0.05 <? port_draw)%float
        then ds = []
        else exists d,
               ds = [d]
               /\ df_device d = device_name
               /\ df_category d = "connectivity"
               /\ df_severity d = CRITICAL)
    /\ ((port_draw <=? 0.05)%float = true -> tr_status r = FAILED).
Proof.
  intros Hget Hdraw response_time port_draw.
  destruct (sim_connectivity_run device_name device fw w Hget)
    as (r & ds & w' & Hrun & _ & Hcase).
  fold response_time port_draw in Hcase.
  assert (Hrt : (0 <? response_time)%float = true) by now apply ping_positive.
  rewrite Hrt in Hcase. cbn [andb] in Hcase.
  exists r, ds, w'. split; [exact Hrun|].
  destruct (0.05 <? port_draw)%float eqn:Hpo; destruct Hcase as (Hst & Hdet & Hds).
  - split; [exact Hst|]. split; [exact Hdet|]. split; [exact Hds|].
    intros Hle. apply float_le_not_gt in Hle. congruence.
  - apply created_one in Hds as (d & -> & _ & H1 & H2 & _ & H4 & _).
    split; [exact Hst|]. split; [exact Hdet|]. split; [|intros _; exact Hst].
    exists d. repeat split; assumption.
Qed.

Lemma simulator_connectivity_verdict_witness :
  let response_time := (1.0 + (50.0 - 1.0) * 0.01)%float in
  let port_draw := 0.01%float in
  exists r ds w',
    test_device_connectivity simulator "optical_device_1" (init None) (steady_world 0.01)
    = (Ok r, extended (init None) r ds, w')
    /\ tr_status r = (if (0.05 <? port_draw)%float then PASSED else FAILED)
    /\ tr_detail r
       = DConnectivity response_time (0.05 <? port_draw)%float
           (if (0.05 <? port_draw)%float
            then None else Some "Connectivity failed - device unreachable")
    /\ (if (0.05 <? port_draw)%float
        then ds = []
        else exists d,
               ds = [d]
               /\ df_device d = "optical_device_1"
               /\ df_category d = "connectivity"
               /\ df_severity d = CRITICAL)
    /\ ((port_draw <=? 0.05)%float = true -> tr_status r = FAILED).
Proof.
  apply (simulator_connectivity_verdict "optical_device_1"
           (mkDevice "192.168.1.100" "optical_transponder" 8080 4 ["REST"; "SNMP"; "CLI"])
           (init None) (steady_world 0.01)); reflexivity.
Defined.

Lemma count_status_app st (l l' : list TestResult) :
  count_status st (l ++ l') = count_status st l + count_status st l'.
Proof. unfold count_status. now rewrite List.filter_app, length_app. Qed.

Lemma count_status_cons st r (l : list TestResult) :
  count_status st (r :: l)
  = (if status_eqb (tr_status r) st then 1 else 0) + count_status st l.
Proof. unfold count_status. cbn [List.filter]. now destruct (status_eqb _ _). Qed.

Section SimulatorSuite.

Variable float_repr : float -> string.

(** One turn of the suite's loop for a wired device. *)
Lemma sim_suite_turn device_name device fw w :
  get (device_configs fw) device_name = Some device ->
  (1 <= expected_interfaces device)%Z ->
  exists r1 r2 r3 r4 ds1 d3 w',
    (test_device_connectivity simulator device_name ;;
     test_device_status float_repr simulator device_name ;;
     test_interface_status simulator device_name ;;
     test_alarm_monitoring simulator device_name ;;
     mret tt) fw w
    = (Ok tt, grown fw [r1; r2; r3; r4] (ds1 ++ [d3]), w')
    /\ (tr_status r1 = PASSED /\ ds1 = []
        \/ tr_status r1 = FAILED
           /\ exists d1, ds1 = [d1]
                /\ defect_for device_name "connectivity" (length (defects fw))
                     "Connectivity failed - device unreachable" d1)
    /\ tr_status r2 = PASSED
    /\ (tr_status r3 = FAILED
        /\ issues_of r3 = [last_interface_issue (expected_interfaces device)])
    /\ tr_status r4 = PASSED
    /\ defect_for device_name "interface" (length (defects fw) + length ds1)
         (last_interface_issue (expected_interfaces device)) d3.
Proof.
  intros Hget Hn.
  destruct (sim_connectivity_run device_name device fw w Hget)
    as (r1 & ds1 & w1 & Hrun1 & _ & Hcase).
  destruct (sim_status_run float_repr device_name device (extended fw r1 ds1) w1 Hget)
    as (r2 & w2 & Hrun2 & _ & Hst2 & _).
  destruct (sim_interface_run device_name device
              (extended (extended fw r1 ds1) r2 []) w2 Hget Hn)
    as (r3 & d3 & w3 & data & Hrun3 & _ & Hst3 & Hdet3 & Hd3).
  destruct (sim_alarm_run device_name device
              (extended (extended (extended fw r1 ds1) r2 []) r3 [d3]) w3 Hget)
    as (r4 & w4 & Hrun4 & _ & Hst4 & _).
  exists r1, r2, r3, r4, ds1, d3, w4. split.
  { erewrite bind_ok by exact Hrun1.
    erewrite bind_ok by exact Hrun2.
    erewrite bind_ok by exact Hrun3.
    erewrite bind_ok by exact Hrun4.
    rewrite !extended_grown, !grown_grown.
    cbn [app]. now rewrite ?app_nil_r. }
  split.
  { destruct (_ && _); destruct Hcase as (Hst1 & _ & Hds1).
    - left. now split.
    - right. split; [exact Hst1|]. now apply created_one in Hds1. }
  split; [exact Hst2|]. split.
  { split; [exact Hst3|]. unfold issues_of. now rewrite Hdet3. }
  split; [exact Hst4|].
  cbn [extended defects] in Hd3. now rewrite app_nil_r, length_app in Hd3.
Qed.

Lemma sim_suite_loop l : forall fw w,
  Forall (wired (device_configs fw)) l ->
  exists rs ds w',
    for_each l (fun device_name =>
      test_device_connectivity simulator device_name ;;
      test_device_status float_repr simulator device_name ;;
      test_interface_status simulator device_name ;;
      test_alarm_monitoring simulator device_name ;;
      mret tt) fw w
    = (Ok tt, grown fw rs ds, w')
    /\ length rs = 4 * length l
    /\ count_status ERROR rs = 0
    /\ length l <= count_status FAILED rs <= 2 * length l
    /\ 2 * length l <= count_status PASSED rs
    /\ length l <= length ds <= 2 * length l.
Proof.
  induction l as [|device_name l IH]; intros fw w Hall.
  - exists [], [], w. rewrite grown_nil. cbn. repeat split; lia.
  - inversion Hall as [|? ? (device & Hget & Hn) Hrest]; subst.
    destruct (sim_suite_turn device_name device fw w Hget Hn)
      as (r1 & r2 & r3 & r4 & ds1 & d3 & w1 & Hrun1 & Hc & Hst2 & (Hst3 & _) & Hst4 & _).
    destruct (IH (grown fw [r1; r2; r3; r4] (ds1 ++ [d3])) w1 Hrest)
      as (rs & ds & w2 & Hrun2 & Hlen & Herr & Hfail & Hpass & Hds).
    exists ([r1; r2; r3; r4] ++ rs)%list, ((ds1 ++ [d3]) ++ ds)%list, w2. split.
    { cbn [for_each]. erewrite bind_ok by exact Hrun1.
      rewrite Hrun2, grown_grown. reflexivity. }
    rewrite !count_status_app, !length_app, !count_status_cons.
    rewrite Hst2, Hst3, Hst4.
    change (count_status _ []) with 0.
    destruct Hc as [[-> ->] | [-> (d1 & -> & _)]]; cbn [status_eqb length]; lia.
Qed.

End SimulatorSuite.

(** X12. With the simulator, the suite run for one registered device of at
    least one interface records four outcomes: connectivity, PASSED or FAILED
    (then with one CRITICAL defect); status, PASSED; interface, FAILED on the
    last interface being down, with one MAJOR defect; alarm, PASSED. *)
Theorem suite_registered_device float_repr device_name device fw w :
  get (device_configs fw) device_name = Some device ->
  (1 <= expected_interfaces device)%Z ->
  exists r1 r2 r3 r4 ds1 d3 fw' w',
    run_test_suite float_repr simulator (Some [device_name]) fw w = (Ok tt, fw', w')
    /\ test_results fw' = (test_results fw ++ [r1; r2; r3; r4])%list
    /\ defects fw' = (defects fw ++ ds1 ++ [d3])%list
    /\ (tr_status r1 = PASSED /\ ds1 = []
        \/ tr_status r1 = FAILED
           /\ exists d1, ds1 = [d1]
                /\ df_category d1 = "connectivity" /\ df_severity d1 = CRITICAL)
    /\ tr_status r2 = PASSED
    /\ (tr_status r3 = FAILED
        /\ issues_of r3 = [last_interface_issue (expected_interfaces device)])
    /\ tr_status r4 = PASSED
    /\ (df_category d3 = "interface" /\ df_severity d3 = MAJOR
        /\ df_description d3 = last_interface_issue (expected_interfaces device)).
Proof.
  intros Hget Hn.
  destruct (sim_suite_turn float_repr device_name device fw w Hget Hn)
    as (r1 & r2 & r3 & r4 & ds1 & d3 & w' & Hrun & Hc & Hst2 & H3 & Hst4 & Hd3).
  exists r1, r2, r3, r4, ds1, d3. do 2 eexists. split.
  { rewrite suite_run. cbn [suite_devices for_each].
    erewrite bind_ok by exact Hrun. reflexivity. }
  split; [reflexivity|]. split; [reflexivity|]. split.
  { destruct Hc as [Hc | (Hst1 & d1 & -> & _ & _ & H2 & _ & H4 & _)]; [now left|].
    right. split; [exact Hst1|]. exists d1. repeat split; auto. }
  split; [exact Hst2|]. split; [exact H3|]. split; [exact Hst4|].
  destruct Hd3 as (_ & _ & H2 & H3' & H4 & _).
  repeat split; auto. rewrite H4. apply last_interface_major.
Qed.

Lemma suite_registered_device_witness :
  exists r1 r2 r3 r4 ds1 d3 fw' w',
    run_test_suite sample_repr simulator (Some ["optical_device_1"]) (init None)
      (steady_world 0.5)
    = (Ok tt, fw', w')
    /\ test_results fw' = (test_results (init None) ++ [r1; r2; r3; r4])%list
    /\ defects fw' = (defects (init None) ++ ds1 ++ [d3])%list
    /\ (tr_status r1 = PASSED /\ ds1 = []
        \/ tr_status r1 = FAILED
           /\ exists d1, ds1 = [d1]
                /\ df_category d1 = "connectivity" /\ df_severity d1 = CRITICAL)
    /\ tr_status r2 = PASSED
    /\ (tr_status r3 = FAILED /\ issues_of r3 = [last_interface_issue 4])
    /\ tr_status r4 = PASSED
    /\ (df_category d3 = "interface" /\ df_severity d3 = MAJOR
        /\ df_description d3 = last_interface_issue 4).
Proof.
  apply (suite_registered_device sample_repr "optical_device_1"
           (mkDevice "192.168.1.100" "optical_transponder" 8080 4 ["REST"; "SNMP"; "CLI"])
           (init None) (steady_world 0.5)).
  - reflexivity.
  - cbn. lia.
Defined.

(** X13. With the simulator, a suite run over [k] device names that are all
    registered with at least one interface adds 4k outcomes, none of them an
    ERROR, at least k and at most 2k of them FAILED, at least 2k of them
    PASSED, and between k and 2k defects. *)
Theorem simulator_suite_tally float_repr device_names fw w :
  Forall (wired (device_configs fw)) (suite_devices device_names fw) ->
  exists fw' w',
    run_test_suite float_repr simulator device_names fw w = (Ok tt, fw', w')
    /\ let k := length (suite_devices device_names fw) in
       length (test_results fw') = length (test_results fw) + 4 * k
       /\ tally ERROR fw' = tally ERROR fw
       /\ tally FAILED fw + k <= tally FAILED fw' <= tally FAILED fw + 2 * k
       /\ tally PASSED fw + 2 * k <= tally PASSED fw'
       /\ length (defects fw) + k <= length (defects fw') <= length (defects fw) + 2 * k.
Proof.
  intros Hall. rewrite suite_run.
  destruct (sim_suite_loop float_repr (suite_devices device_names fw) fw w Hall)
    as (rs & ds & w' & Hrun & Hlen & Herr & Hfail & Hpass & Hds).
  exists (grown fw rs ds), w'. split; [exact Hrun|].
  cbv zeta. unfold tally. cbn [grown test_results defects].
  rewrite !count_status_app, !length_app. lia.
Qed.

Lemma simulator_suite_tally_witness :
  exists fw' w',
    run_test_suite sample_repr simulator None (init None) (steady_world 0.5)
    = (Ok tt, fw', w')
    /\ let k := length (suite_devices None (init None)) in
       length (test_results fw') = length (test_results (init None)) + 4 * k
       /\ tally ERROR fw' = tally ERROR (init None)
       /\ tally FAILED (init None) + k <= tally FAILED fw'
          <= tally FAILED (init None) + 2 * k
       /\ tally PASSED (init None) + 2 * k <= tally PASSED fw'
       /\ length (defects (init None)) + k <= length (defects fw')
          <= length (defects (init None)) + 2 * k.
Proof.
  apply (simulator_suite_tally sample_repr None (init None) (steady_world 0.5)).
  repeat constructor; eexists; (split; [reflexivity | cbn; lia]).
Defined.

(** ** Severity, configuration and edge cases *)

Lemma lower_ascii_idem (c : ascii) : lower_ascii (lower_ascii c) = lower_ascii c.
Proof. destruct c as [[] [] [] [] [] [] [] []]; reflexivity. Qed.

Lemma lower_idem (s : string) : lower (lower s) = lower s.
Proof. induction s; simpl; [reflexivity|]. now rewrite lower_ascii_idem, IHs. Qed.

(** X14. The severity does not depend on letter case: categories and
    descriptions that agree once lower-cased get the same severity, which is
    also the severity of their lower-cased forms. *)
Theorem determine_severity_ignores_case category description category' description' :
  lower category = lower category' ->
  lower description = lower description' ->
  determine_severity category description = determine_severity category' description'
  /\ determine_severity (lower category) (lower description)
     = determine_severity category description.
Proof.
  intros Hc Hd. unfold determine_severity.
  rewrite !lower_idem, Hc, Hd. now split.
Qed.

Lemma determine_severity_ignores_case_witness :
  determine_severity "INTERFACE" "Port eth0 is DOWN"
  = determine_severity "interface" "port eth0 is down"
  /\ determine_severity (lower "INTERFACE") (lower "Port eth0 is DOWN")
     = determine_severity "INTERFACE" "Port eth0 is DOWN".
Proof.
  apply (determine_severity_ignores_case "INTERFACE" "Port eth0 is DOWN"
           "interface" "port eth0 is down"); reflexivity.
Defined.

Lemma contains_extend word pre text post :
  contains word (lower text) = true ->
  contains word (lower (pre ++ text ++ post)) = true.
Proof.
  rewrite !contains_iff. intros (a & b & H).
  exists (lower pre ++ a), (b ++ lower post).
  rewrite !lower_app, H, !string_app_assoc. reflexivity.
Qed.

(** X15. Adding text before or after a description never lowers the severity of
    a defect of the same category. *)
Theorem determine_severity_monotone category pre description post :
  severity_rank (determine_severity category description)
  <= severity_rank (determine_severity category (pre ++ description ++ post)).
Proof.
  unfold determine_severity.
  pose proof (contains_extend "unreachable" pre description post) as Hu.
  pose proof (contains_extend "down" pre description post) as Hd.
  destruct (contains "connectivity" (lower category)); [cbn; lia|].
  destruct (contains "unreachable" (lower description)).
  { rewrite Hu by reflexivity. cbn. lia. }
  cbn [orb].
  destruct (contains "unreachable" (lower (pre ++ description ++ post)));
    [destruct (_ && _); [cbn; lia | destruct (_ && _); cbn; lia]|].
  destruct (contains "interface" (lower category)); cbn [andb].
  - destruct (contains "down" (lower description)).
    + rewrite Hd by reflexivity. cbn. lia.
    + destruct (contains "high" (lower description) && _); cbn;
        destruct (contains "down" _); cbn; try lia;
        destruct (_ && _); cbn; lia.
  - destruct (_ && _), (_ && _); cbn; lia.
Qed.

Lemma init_load_config (read : Result Registry) (w : World) :
  load_config read {| test_results := []; defects := []; device_configs := [] |} w
  = (Ok tt, init (Some read), w).
Proof. now destruct read. Qed.

(** X16. [load_config] never raises and keeps the recorded outcomes and defects;
    the registry after it is the content read, or the default devices when
    reading raised, whatever was loaded before: a device the new registry
    does not name is unknown to the next connectivity check, which records
    FAILED with "Device configuration not found" and no defect. *)
Theorem load_config_replaces_registry adapter read device_name fw w :
  let cfg := match read with Ok cfg => cfg | Raise _ => default_devices end in
  get cfg device_name = None ->
  exists r w',
    (load_config read ;; test_device_connectivity adapter device_name) fw w
    = (Ok r,
       {| test_results := test_results fw ++ [r];
          defects := defects fw;
          device_configs := cfg |},
       w')
    /\ tr_status r = FAILED
    /\ issues_of r = ["Device configuration not found"].
Proof.
  intros cfg Hget.
  set (fw1 := {| test_results := test_results fw; defects := defects fw;
                 device_configs := cfg |}).
  destruct (connectivity_unknown adapter device_name fw1 w Hget)
    as (r & Hrun & Hst & _ & Hdet).
  exists r. eexists. split.
  - erewrite bind_ok by reflexivity. fold cfg fw1. rewrite Hrun.
    unfold extended. cbn [fw1 test_results defects device_configs].
    now rewrite app_nil_r.
  - split; [exact Hst|]. unfold issues_of. now rewrite Hdet.
Qed.

Lemma load_config_replaces_registry_witness :
  exists r w',
    (load_config (Raise "No such file or directory") ;;
     test_device_connectivity simulator "edge_router")
      (init (Some (Ok edge_registry))) (steady_world 0.5)
    = (Ok r,
       {| test_results := test_results (init (Some (Ok edge_registry))) ++ [r];
          defects := defects (init (Some (Ok edge_registry)));
          device_configs := default_devices |},
       w')
    /\ tr_status r = FAILED
    /\ issues_of r = ["Device configuration not found"].
Proof.
  apply (load_config_replaces_registry simulator (Raise "No such file or directory")
           "edge_router" (init (Some (Ok edge_registry))) (steady_world 0.5)).
  reflexivity.
Defined.

(** X17. Defects are not deduplicated: creating a defect twice for the same
    device, category and description appends two defects that agree on
    device, category, description and severity and differ in their
    identifier. *)
Theorem create_defect_twice device_name category description fw w :
  exists d1 d2 w',
    (create_defect device_name category description ;;
     create_defect device_name category description) fw w
    = (Ok d2, grown fw [] [d1; d2], w')
    /\ df_device d1 = df_device d2
    /\ df_category d1 = df_category d2
    /\ df_description d1 = df_description d2
    /\ df_severity d1 = df_severity d2
    /\ defect_id d1 <> defect_id d2.
Proof.
  destruct (create_defect_run device_name category description fw w)
    as (d1 & Hrun1 & Hid1 & Hd1 & Hc1 & Hdesc1 & Hs1 & _).
  match type of Hrun1 with _ = (_, ?fw1, _) =>
    destruct (create_defect_run device_name category description fw1 (tick w))
      as (d2 & Hrun2 & Hid2 & Hd2 & Hc2 & Hdesc2 & Hs2 & _) end.
  exists d1, d2. eexists. split.
  - erewrite bind_ok by exact Hrun1. rewrite Hrun2.
    unfold grown. cbn [test_results defects device_configs].
    now rewrite app_nil_r, <- app_assoc.
  - repeat split; try congruence.
    intros Heq. cbn [defects] in Hid2. rewrite length_app in Hid2. cbn [length] in Hid2.
    pose proof (defect_number_format (length (defects fw))) as N1.
    pose proof (defect_number_format (length (defects fw) + 1)) as N2.
    rewrite <- Hid1 in N1. rewrite <- Hid2, <- Heq, N1 in N2.
    injection N2. lia.
Qed.

(** A reading that is not a number is above no threshold. *)
Lemma nan_not_above (t x : float) :
  PrimFloat.is_nan x = true -> (t <? x)%float = false.
Proof.
  unfold PrimFloat.is_nan. rewrite FloatAxioms.eqb_spec, FloatAxioms.ltb_spec.
  unfold SFeqb, SFltb.
  destruct (Prim2SF x) as [s|s| |s m e]; cbn.
  - discriminate.
  - destruct s; discriminate.
  - intros _. now destruct (Prim2SF t).
  - rewrite Z.compare_refl, Pos.compare_cont_refl. destruct s; discriminate.
Qed.

(** X18. A reading that is not a number raises no issue: when every metric of
    the status payload is NaN or at most its threshold, the status check
    passes with no issue and no defect. *)
Theorem status_ignores_nan float_repr adapter device_name fw w st up cpu mem temp n w1 :
  simulate_rest_call adapter (device_configs fw) device_name "/system/status" (tick w)
  = (Ok (RespStatus st up cpu mem temp n), w1) ->
  PrimFloat.is_nan cpu = true \/ (cpu <=? 80.0)%float = true ->
  PrimFloat.is_nan mem = true \/ (mem <=? 90.0)%float = true ->
  PrimFloat.is_nan temp = true \/ (temp <=? 60.0)%float = true ->
  exists r w',
    test_device_status float_repr adapter device_name fw w = (Ok r, extended fw r [], w')
    /\ tr_status r = PASSED
    /\ issues_of r = [].
Proof.
  intros Hcall Hc Hm Ht.
  assert (Hc' : (80.0 <? cpu)%float = false)
    by (destruct Hc; [now apply nan_not_above | now apply float_le_not_gt]).
  assert (Hm' : (90.0 <? mem)%float = false)
    by (destruct Hm; [now apply nan_not_above | now apply float_le_not_gt]).
  assert (Ht' : (60.0 <? temp)%float = false)
    by (destruct Ht; [now apply nan_not_above | now apply float_le_not_gt]).
  destruct (status_answered float_repr adapter device_name fw w _ w1 Hcall)
    as (r & ds & w' & Hrun & _ & Hst & Hdet & Hds).
  rewrite evaluate_status_payload in Hst, Hdet, Hds.
  unfold breach_issues in Hdet, Hds.
  rewrite Hc', Hm', Ht' in Hst, Hdet, Hds. cbn in Hst, Hdet, Hds.
  apply created_none in Hds. subst ds.
  exists r, w'. repeat split; try assumption.
  unfold issues_of. now rewrite Hdet.
Qed.

Lemma status_ignores_nan_witness :
  exists r w',
    test_device_status sample_repr (answering blank_status) "optical_device_1"
      (init None) (steady_world 0.5)
    = (Ok r, extended (init None) r [], w')
    /\ tr_status r = PASSED
    /\ issues_of r = [].
Proof.
  apply (status_ignores_nan sample_repr (answering blank_status) "optical_device_1"
           (init None) (steady_world 0.5) "operational" "72:15:30" nan 45.8 nan 4
           (tick (steady_world 0.5))).
  - reflexivity.
  - left. reflexivity.
  - right. reflexivity.
  - left. reflexivity.
Defined.

(** X19. A payload that lacks the metrics passes the status check: when the
    adapter answers a payload with neither an error nor the keys of the three
    metrics, each missing metric reads as 0, and the outcome is PASSED with no
    issue and no defect. *)
Theorem status_missing_metrics float_repr adapter device_name fw w data w1 :
  simulate_rest_call adapter (device_configs fw) device_name "/system/status" (tick w)
  = (Ok data, w1) ->
  has_error data = false ->
  lacks_metrics data = true ->
  exists r w',
    test_device_status float_repr adapter device_name fw w = (Ok r, extended fw r [], w')
    /\ tr_status r = PASSED
    /\ tr_detail r = DStatus data [].
Proof.
  intros Hcall Herr Hlack.
  destruct (status_answered float_repr adapter device_name fw w _ w1 Hcall)
    as (r & ds & w' & Hrun & _ & Hst & Hdet & Hds).
  assert (E : evaluate_status float_repr data = (true, []))
    by (destruct data; try discriminate; reflexivity).
  rewrite E in Hst, Hdet, Hds. cbn [fst snd] in Hst, Hdet, Hds.
  apply created_none in Hds. subst ds. now exists r, w'.
Qed.

Lemma status_missing_metrics_witness :
  exists r w',
    test_device_status sample_repr (answering single_link) "optical_device_1" (init None)
      (steady_world 0.5)
    = (Ok r, extended (init None) r [], w')
    /\ tr_status r = PASSED
    /\ tr_detail r = DStatus single_link [].
Proof.
  apply (status_missing_metrics sample_repr (answering single_link) "optical_device_1"
           (init None) (steady_world 0.5) single_link (tick (steady_world 0.5)));
    reflexivity.
Defined.

Lemma error_severity_spec category e :
  contains "connectivity" (lower category) = false ->
  determine_severity category e = error_severity category e.
Proof.
  intros Hc. unfold determine_severity, error_severity. rewrite Hc. cbn [orb].
  destruct (contains "unreachable" (lower e)); [reflexivity|].
  destruct (contains "interface" (lower category) && contains "down" (lower e));
    [reflexivity|].
  now destruct (contains "high" (lower e) && _).
Qed.

(** X20. An error payload fails the status check and the interface check
    alike, whatever the adapter and the device: the outcome is FAILED, its
    only issue is the error text, and exactly one defect is created for it,
    of the category of the check (performance, interface) and rated by the
    text: CRITICAL when it mentions "unreachable", else MAJOR for the
    interface check when it mentions "down", else MINOR. *)
Theorem error_payload_verdict :
  (forall float_repr adapter device_name fw w e w1,
      simulate_rest_call adapter (device_configs fw) device_name "/system/status" (tick w)
      = (Ok (RespError e), w1) ->
      exists r d w',
        test_device_status float_repr adapter device_name fw w
        = (Ok r, extended fw r [d], w')
        /\ tr_status r = FAILED
        /\ issues_of r = [e]
        /\ df_category d = "performance"
        /\ df_description d = e
        /\ df_severity d = error_severity "performance" e)
  /\ (forall adapter device_name fw w e w1,
        simulate_rest_call adapter (device_configs fw) device_name "/interfaces" (tick w)
        = (Ok (RespError e), w1) ->
        exists r d w',
          test_interface_status adapter device_name fw w
          = (Ok r, extended fw r [d], w')
          /\ tr_status r = FAILED
          /\ issues_of r = [e]
          /\ df_category d = "interface"
          /\ df_description d = e
          /\ df_severity d = error_severity "interface" e).
Proof.
  split.
  - intros float_repr adapter device_name fw w e w1 Hcall.
    destruct (status_answered float_repr adapter device_name fw w _ w1 Hcall)
      as (r & ds & w' & Hrun & _ & Hst & Hdet & Hds).
    cbn in Hst, Hdet, Hds.
    apply created_one in Hds as (d & -> & _ & H1 & H2 & H3 & H4 & _).
    exists r, d, w'. repeat split; try assumption.
    + unfold issues_of. now rewrite Hdet.
    + rewrite H4. now apply error_severity_spec.
  - intros adapter device_name fw w e w1 Hcall.
    destruct (interface_answered adapter device_name fw w _ w1 Hcall)
      as (r & ds & w' & Hrun & _ & Hst & Hdet & Hds).
    cbn in Hst, Hdet, Hds.
    apply created_one in Hds as (d & -> & _ & H1 & H2 & H3 & H4 & _).
    exists r, d, w'. repeat split; try assumption.
    + unfold issues_of. now rewrite Hdet.
    + rewrite H4. now apply error_severity_spec.
Qed.

Lemma error_payload_verdict_witness :
  (exists r d w',
      test_device_status sample_repr (answering link_down_error) "optical_device_1"
        (init None) (steady_world 0.5)
      = (Ok r, extended (init None) r [d], w')
      /\ tr_status r = FAILED
      /\ issues_of r = ["Link down"]
      /\ df_category d = "performance"
      /\ df_description d = "Link down"
      /\ df_severity d = error_severity "performance" "Link down")
  /\ (exists r d w',
        test_interface_status (answering link_down_error) "optical_device_1"
          (init None) (steady_world 0.5)
        = (Ok r, extended (init None) r [d], w')
        /\ tr_status r = FAILED
        /\ issues_of r = ["Link down"]
        /\ df_category d = "interface"
        /\ df_description d = "Link down"
        /\ df_severity d = error_severity "interface" "Link down").
Proof.
  split.
  - apply (proj1 error_payload_verdict sample_repr (answering link_down_error)
             "optical_device_1" (init None) (steady_world 0.5) "Link down"
             (tick (steady_world 0.5))).
    reflexivity.
  - apply (proj2 error_payload_verdict (answering link_down_error)
             "optical_device_1" (init None) (steady_world 0.5) "Link down"
             (tick (steady_world 0.5))).
    reflexivity.
Defined.

(** The error text "Link down" makes a MINOR performance defect and a MAJOR
    interface defect. *)
Example link_down_severities :
  error_severity "performance" "Link down" = MINOR
  /\ error_severity "interface" "Link down" = MAJOR.
Proof. split; reflexivity. Qed.

(** X21. For a device name absent from the registry the connectivity check does
    not reach the adapter: its result is the same for every adapter, a FAILED
    outcome without the device key, with the integer duration 0, recorded
    after two clock reads. *)
Theorem connectivity_unknown_skips_adapter adapter adapter' device_name fw w :
  get (device_configs fw) device_name = None ->
  test_device_connectivity adapter device_name fw w
  = test_device_connectivity adapter' device_name fw w
  /\ exists r,
       test_device_connectivity adapter device_name fw w
       = (Ok r, extended fw r [], tick (tick w))
       /\ tr_status r = FAILED
       /\ tr_device r = None
       /\ tr_duration r = PInt 0.
Proof.
  intros Hget. unfold test_device_connectivity, extended. run_m.
  rewrite Hget. run_m. split; [reflexivity|].
  eexists. rewrite app_nil_r. split; [reflexivity|]. repeat split.
Qed.

Lemma connectivity_unknown_skips_adapter_witness :
  test_device_connectivity simulator "ghost" (init None) (steady_world 0.5)
  = test_device_connectivity (answering hot_status) "ghost" (init None) (steady_world 0.5)
  /\ exists r,
       test_device_connectivity simulator "ghost" (init None) (steady_world 0.5)
       = (Ok r, extended (init None) r [], tick (tick (steady_world 0.5)))
       /\ tr_status r = FAILED
       /\ tr_device r = None
       /\ tr_duration r = PInt 0.
Proof.
  apply (connectivity_unknown_skips_adapter simulator (answering hot_status) "ghost"
           (init None) (steady_world 0.5)).
  reflexivity.
Defined.

(** X22. When outcomes are recorded and none of them passed, the pass rate of
    the report is "0.0%" (not the "0%" of an empty report). *)
Theorem pass_rate_none_passed fw w :
  0 < length (test_results fw) ->
  (Z.of_nat (length (test_results fw)) < 2 ^ 63)%Z ->
  count_status PASSED (test_results fw) = 0 ->
  exists report,
    generate_test_report fw w = (Ok report, fw, tick w)
    /\ passed (test_summary report) = 0
    /\ pass_rate (test_summary report) = "0.0%".
Proof.
  intros Hpos Hlt Hnone.
  eexists. split; [apply generate_test_report_run|].
  cbn [test_summary passed pass_rate]. split; [exact Hnone|].
  replace (0 <? length (test_results fw))%nat with true
    by (symmetry; now apply Nat.ltb_lt).
  unfold printed_rate. rewrite Hnone. now rewrite zero_rate.
Qed.

Lemma pass_rate_none_passed_witness :
  exists report,
    generate_test_report after_ghost_check (steady_world 0.5)
    = (Ok report, after_ghost_check, tick (steady_world 0.5))
    /\ passed (test_summary report) = 0
    /\ pass_rate (test_summary report) = "0.0%".
Proof.
  apply (pass_rate_none_passed after_ghost_check (steady_world 0.5));
    [vm_compute; lia | reflexivity | reflexivity].
Defined.

(** X23. When outcomes are recorded and all of them passed, the pass rate of the
    report is "100.0%". *)
Theorem pass_rate_all_passed fw w :
  0 < length (test_results fw) ->
  (Z.of_nat (length (test_results fw)) < 2 ^ 63)%Z ->
  count_status PASSED (test_results fw) = length (test_results fw) ->
  exists report,
    generate_test_report fw w = (Ok report, fw, tick w)
    /\ passed (test_summary report) = total_tests (test_summary report)
    /\ pass_rate (test_summary report) = "100.0%".
Proof.
  intros Hpos Hlt Hall.
  eexists. split; [apply generate_test_report_run|].
  cbn [test_summary passed total_tests pass_rate]. split; [exact Hall|].
  replace (0 <? length (test_results fw))%nat with true
    by (symmetry; now apply Nat.ltb_lt).
  unfold printed_rate. rewrite Hall. now rewrite full_rate.
Qed.

Lemma pass_rate_all_passed_witness :
  exists report,
    generate_test_report after_alarm_check (steady_world 0.5)
    = (Ok report, after_alarm_check, tick (steady_world 0.5))
    /\ passed (test_summary report) = total_tests (test_summary report)
    /\ pass_rate (test_summary report) = "100.0%".
Proof.
  apply (pass_rate_all_passed after_alarm_check (steady_world 0.5));
    [vm_compute; lia | reflexivity | reflexivity].
Defined.

(** ** The ledger of issues and defects *)

Lemma created_tracks device_name category n issues ds :
  created device_name category n issues ds -> Forall2 (tracks device_name) issues ds.
Proof.
  induction 1 as [|n issue issues d ds (_ & H1 & _ & H3 & _) _ IH];
    constructor; [now split | exact IH].
Qed.

Lemma untracked r : tr_status r <> FAILED \/ tr_device r = None -> tracked_issues r = [].
Proof.
  unfold tracked_issues. intros [H|H].
  - now destruct (tr_status r).
  - rewrite H. now destruct (tr_status r).
Qed.

Section Ledger.

Variable float_repr : float -> string.
Variable adapter : Adapter.

Lemma connectivity_ledger device_name :
  ledger_step device_name (test_device_connectivity adapter device_name).
Proof.
  intros fw w.
  destruct (get (device_configs fw) device_name) as [device|] eqn:Hget.
  - destruct (simulate_ping adapter (ip device) (tick w)) as [[rt|e] w1] eqn:Hping.
    + destruct (simulate_port_check adapter (ip device) (management_port device) w1)
        as [[po|e] w2] eqn:Hport.
      * destruct (connectivity_answered adapter device_name device fw w rt po w1 w2
                    Hget Hping Hport) as (r & ds & w' & Hrun & Hdev & Hcase).
        exists r, ds, w'. split; [exact Hrun|]. split; [now right|].
        unfold tracked_issues, issues_of. rewrite Hdev.
        destruct ((0 <? rt)%float && po).
        -- destruct Hcase as (-> & _ & ->). constructor.
        -- destruct Hcase as (-> & -> & Hds). now apply created_tracks in Hds.
      * destruct (connectivity_port_raises adapter device_name device fw w rt e w1 w2
                    Hget Hping Hport) as (r & Hrun & Hst & Hdev & _).
        exists r, [], (tick (tick w2)). split; [exact Hrun|]. split; [now left|].
        rewrite untracked by now right. constructor.
    + destruct (connectivity_ping_raises adapter device_name device fw w e w1 Hget Hping)
        as (r & Hrun & Hst & Hdev & _).
      exists r, [], (tick (tick w1)). split; [exact Hrun|]. split; [now left|].
      rewrite untracked by now right. constructor.
  - destruct (connectivity_unknown adapter device_name fw w Hget)
      as (r & Hrun & Hst & Hdev & _).
    exists r, [], (tick (tick w)). split; [exact Hrun|]. split; [now left|].
    rewrite untracked by now right. constructor.
Qed.

Lemma status_ledger device_name :
  ledger_step device_name (test_device_status float_repr adapter device_name).
Proof.
  intros fw w.
  destruct (simulate_rest_call adapter (device_configs fw) device_name "/system/status"
              (tick w)) as [[data|e] w1] eqn:Hcall.
  - destruct (status_answered float_repr adapter device_name fw w data w1 Hcall)
      as (r & ds & w' & Hrun & Hdev & Hst & Hdet & Hds).
    exists r, ds, w'. split; [exact Hrun|]. split; [now right|].
    unfold tracked_issues, issues_of. rewrite Hdev, Hst, Hdet.
    destruct (fst (evaluate_status float_repr data)); now apply created_tracks in Hds.
  - destruct (status_raises float_repr adapter device_name fw w e w1 Hcall)
      as (r & Hrun & Hst & Hdev & _).
    exists r, [], (tick (tick w1)). split; [exact Hrun|]. split; [now left|].
    rewrite untracked by now right. constructor.
Qed.

Lemma interface_ledger device_name :
  ledger_step device_name (test_interface_status adapter device_name).
Proof.
  intros fw w.
  destruct (simulate_rest_call adapter (device_configs fw) device_name "/interfaces"
              (tick w)) as [[data|e] w1] eqn:Hcall.
  - destruct (interface_answered adapter device_name fw w data w1 Hcall)
      as (r & ds & w' & Hrun & Hdev & Hst & Hdet & Hds).
    exists r, ds, w'. split; [exact Hrun|]. split; [now right|].
    unfold tracked_issues, issues_of. rewrite Hdev, Hst, Hdet.
    destruct (fst (evaluate_interfaces data _)); now apply created_tracks in Hds.
  - destruct (interface_raises adapter device_name fw w e w1 Hcall)
      as (r & Hrun & Hst & Hdev & _).
    exists r, [], (tick (tick w1)). split; [exact Hrun|]. split; [now left|].
    rewrite untracked by now right. constructor.
Qed.

Lemma alarm_ledger device_name :
  ledger_step device_name (test_alarm_monitoring adapter device_name).
Proof.
  intros fw w.
  destruct (simulate_rest_call adapter (device_configs fw) device_name "/alarms"
              (tick w)) as [[data|e] w1] eqn:Hcall.
  - destruct (alarm_answered adapter device_name fw w data w1 Hcall)
      as (r & Hrun & Hdev & Hst & _).
    exists r, [], (tick (tick w1)). split; [exact Hrun|]. split; [now right|].
    rewrite untracked by (left; congruence). constructor.
  - destruct (alarm_raises adapter device_name fw w e w1 Hcall)
      as (r & Hrun & Hst & Hdev & _).
    exists r, [], (tick (tick w1)). split; [exact Hrun|]. split; [now left|].
    rewrite untracked by now right. constructor.
Qed.

Lemma checks_ledger check device_name :
  In check (checks float_repr adapter) -> ledger_step device_name (check device_name).
Proof.
  intros [<-|[<-|[<-|[<-|[]]]]].
  - apply connectivity_ledger.
  - apply status_ledger.
  - apply interface_ledger.
  - apply alarm_ledger.
Qed.

End Ledger.

Lemma issue_count_app (l l' : list TestResult) :
  issue_count (l ++ l') = issue_count l + issue_count l'.
Proof. unfold issue_count. now rewrite map_app, concat_app, length_app. Qed.

Lemma balanced_ret {A} (a : A) : balanced 0 (mret a).
Proof. intros fw w. exists a, fw, w. split; [reflexivity | lia]. Qed.

Lemma balanced_gets {A} (f : Framework -> A) : balanced 0 (gets f).
Proof. intros fw w. exists (f fw), fw, w. split; [reflexivity | lia]. Qed.

Lemma balanced_bind {A B} (j k : nat) (m : M A) (h : A -> M B) :
  balanced j m -> (forall a, balanced k (h a)) -> balanced (j + k) (m ≫= h).
Proof.
  intros Hm Hh fw w.
  destruct (Hm fw w) as (a & fw1 & w1 & Hrun1 & H1).
  destruct (Hh a fw1 w1) as (b & fw2 & w2 & Hrun2 & H2).
  exists b, fw2, w2. split; [|lia].
  now rewrite (bind_ok _ _ _ _ _ _ _ Hrun1).
Qed.

Lemma balanced_for_each {A} (l : list A) (body : A -> M unit) :
  (forall x, balanced 0 (body x)) -> balanced 0 (for_each l body).
Proof.
  intros Hbody. induction l as [|x l IH]; cbn [for_each].
  - apply balanced_ret.
  - apply (balanced_bind 0 0); [apply Hbody | intros _; exact IH].
Qed.

Lemma ledger_balanced device_name check :
  ledger_step device_name check -> balanced 0 check.
Proof.
  intros Hstep fw w.
  destruct (Hstep fw w) as (r & ds & w' & Hrun & _ & Hds).
  exists r, (extended fw r ds), w'. split; [exact Hrun|].
  cbn [extended test_results defects].
  rewrite length_app, issue_count_app.
  apply Forall2_length in Hds.
  unfold issue_count at 3. cbn [map List.concat]. rewrite app_nil_r. lia.
Qed.

Lemma perform_balanced float_repr adapter c :
  balanced (direct_defects c) (perform float_repr adapter c).
Proof.
  destruct c; cbn [perform direct_defects].
  1-4: apply (balanced_bind 0 0); [|intros _; apply balanced_ret];
    apply (ledger_balanced device_name).
  - apply connectivity_ledger.
  - apply status_ledger.
  - apply interface_ledger.
  - apply alarm_ledger.
  - apply (balanced_bind 1 0); [|intros _; apply balanced_ret].
    intros fw w.
    destruct (create_defect_run device_name category description fw w) as (d & Hrun & _).
    do 3 eexists. split; [exact Hrun|].
    cbn [defects test_results]. rewrite length_app. cbn [length]. lia.
  - unfold run_test_suite. apply (balanced_bind 0 0).
    + destruct device_names; [apply balanced_ret | apply balanced_gets].
    + intros names. apply balanced_for_each. intros device_name.
      repeat (apply (balanced_bind 0 0);
              [apply (ledger_balanced device_name), (checks_ledger float_repr adapter);
               cbn; tauto | intros _]).
      apply balanced_ret.
  - apply (balanced_bind 0 0); [|intros _; apply balanced_ret].
    intros fw w. destruct (report_run fw w) as (report & Hrun).
    exists report, fw, (tick w). split; [exact Hrun | lia].
Qed.

(** X24. After any sequence of calls on a new instance, the number of defects
    is the number of issues of the recorded outcomes that are FAILED and carry
    the device key (every FAILED outcome but the connectivity outcome of an
    unknown device), plus the number of direct calls of [create_defect]: a
    check creates exactly one defect per such issue, and nothing else creates
    one. *)
Theorem defects_balance_issues float_repr adapter config (calls : list Call) w :
  exists fw' w',
    for_each calls (perform float_repr adapter) (init config) w = (Ok tt, fw', w')
    /\ length (defects fw')
       = issue_count (test_results fw') + list_sum (map direct_defects calls).
Proof.
  assert (H : forall fw w,
             exists fw' w',
               for_each calls (perform float_repr adapter) fw w = (Ok tt, fw', w')
               /\ length (defects fw') + issue_count (test_results fw)
                  = length (defects fw) + issue_count (test_results fw')
                    + list_sum (map direct_defects calls)).
  { induction calls as [|c calls IH]; intros fw0 w0.
    - exists fw0, w0. split; [reflexivity | cbn; lia].
    - destruct (perform_balanced float_repr adapter c fw0 w0)
        as ([] & fw1 & w1 & Hrun1 & H1).
      destruct (IH fw1 w1) as (fw2 & w2 & Hrun2 & H2).
      exists fw2, w2. split.
      + cbn [for_each]. now rewrite (bind_ok _ _ _ _ _ _ _ Hrun1).
      + change (list_sum (map direct_defects (c :: calls)))
          with (direct_defects c + list_sum (map direct_defects calls)).
        lia. }
  destruct (H (init config) w) as (fw' & w' & Hrun & Hbal).
  exists fw', w'. split; [exact Hrun|].
  change (length (defects (init config))) with 0 in Hbal.
  change (issue_count (test_results (init config))) with 0 in Hbal.
  lia.
Qed.

Lemma ledger_keeps_tracked device_name check :
  ledger_step device_name check -> keeps issues_tracked check.
Proof.
  intros Hstep fw w Hinv.
  destruct (Hstep fw w) as (r & ds & w' & Hrun & Hdev & Hds).
  exists r, (extended fw r ds), w'. split; [exact Hrun|].
  unfold issues_tracked. cbn [extended test_results defects].
  apply Forall_app_2.
  - eapply List.Forall_impl; [|exact Hinv].
    intros r0 H0 name Hname. eapply List.Forall_impl; [|exact (H0 name Hname)].
    intros issue (d & Hin & Hd). exists d. split; [|exact Hd].
    apply in_or_app. now left.
  - constructor; [|constructor].
    intros name Hname.
    destruct Hdev as [Hdev|Hdev]; rewrite Hdev in Hname; [discriminate|].
    injection Hname as <-.
    clear - Hds. induction Hds as [|issue d issues ds' Hd _ IH]; constructor.
    + exists d. split; [|exact Hd]. apply in_or_app. right. now left.
    + eapply List.Forall_impl; [|exact IH].
      intros issue' (d' & Hin & Hd'). exists d'. split; [|exact Hd'].
      apply in_app_or in Hin as [Hin|Hin]; apply in_or_app; [now left|].
      right. now right.
Qed.

(** X25. In every state an instance can reach, every issue of a recorded
    outcome that is FAILED and carries the device key is tracked by a defect
    for that device whose description is the issue. *)
Theorem failed_issues_tracked float_repr adapter fw :
  reachable float_repr adapter fw ->
  Forall (fun r =>
            forall device_name,
              tr_status r = FAILED ->
              tr_device r = Some device_name ->
              Forall (fun issue =>
                        exists d,
                          In d (defects fw)
                          /\ df_device d = device_name /\ df_description d = issue)
                     (issues_of r))
         (test_results fw).
Proof.
  intros Hreach.
  assert (Hinv : issues_tracked fw).
  { revert fw Hreach.
    apply (reachable_invariant float_repr adapter issues_tracked).
    - intros config. constructor.
    - apply perform_keeps.
      + intros check device_name Hin.
        apply (ledger_keeps_tracked device_name).
        now apply (checks_ledger float_repr adapter).
      + intros device_name category description fw0 w Hinv.
        destruct (create_defect_run device_name category description fw0 w)
          as (d & Hrun & _).
        do 3 eexists. split; [exact Hrun|].
        unfold issues_tracked in *. cbn [test_results defects].
        eapply List.Forall_impl; [|exact Hinv].
        intros r0 H0 name Hname. eapply List.Forall_impl; [|exact (H0 name Hname)].
        intros issue (d0 & Hin & Hd). exists d0. split; [|exact Hd].
        apply in_or_app. now left. }
  eapply List.Forall_impl; [|exact Hinv].
  intros r Hr device_name Hst Hdev. specialize (Hr device_name Hdev).
  unfold tracked_issues in Hr. now rewrite Hst, Hdev in Hr.
Qed.

Lemma failed_issues_tracked_witness :
  Forall (fun r =>
            forall device_name,
              tr_status r = FAILED ->
              tr_device r = Some device_name ->
              Forall (fun issue =>
                        exists d,
                          In d (defects after_default_run)
                          /\ df_device d = device_name /\ df_description d = issue)
                     (issues_of r))
         (test_results after_default_run).
Proof.
  apply (failed_issues_tracked sample_repr simulator after_default_run).
  exact after_default_run_reachable.
Defined.
